(** * FitTrek: workout logs and statistics

    A shallow embedding of the workout-log part of [server/storage.ts]
    (class [MemStorage]), of the two routes of [server/routes.ts] that
    drive it ([POST /api/logs], [GET /api/stats]) and of the insert schema
    of [shared/schema.ts], followed by the properties of the specification.
    The users, workouts and workout days of [MemStorage], the routes over
    them, [getBMIClassification] and the client's [formatDuration] and
    statistics request are embedded after the logs, and their properties
    follow those of the specification.

    Conventions of the embedding.
    - A JavaScript [number] that the schema declares [integer] is a [Z];
      the two derived ratios of [WorkoutStats] are rationals ([Q]), so
      [a / b] is the exact quotient.  The rounding of IEEE doubles (beyond
      2^53, or in a quotient such as 5/12) is not represented.
    - A [Date] is its [getTime()] value, a number of milliseconds.  The
      dates of the logs and of the clock are valid dates (the schema's
      date field admits no other).  The date that [getWorkoutStats]
      computes with [setDate] may be the invalid date: it is an
      [option Date] whose [None] is the invalid date.
    - [async] methods are run to completion: a method is a function of the
      storage object it reads, and returns the new storage object when it
      assigns to a field of [this].
    - The clock is explicit: every [new Date()] of the source is a
      parameter of the embedded method. *)

From Stdlib Require Import String Ascii.
From Stdlib Require Import ZArith QArith Qminmax List Bool Lia.
From Stdlib Require Import Sorting.Sorted Sorting.Permutation.
Import ListNotations.

Open Scope Z_scope.

(** ** JavaScript [Map] with numeric keys

    A [Map] iterates in insertion order; [set] on a key already present
    replaces the value where it stands, [set] on a new key appends. *)

Module JsMap.

Definition t (V : Type) : Type := list (Z * V).

Definition empty {V : Type} : t V := [].

Fixpoint get {V : Type} (k : Z) (m : t V) : option V :=
  match m with
  | [] => None
  | (k', v) :: m' => if k' =? k then Some v else get k m'
  end.

Definition has {V : Type} (k : Z) (m : t V) : bool :=
  match get k m with Some _ => true | None => false end.

Fixpoint set {V : Type} (k : Z) (v : V) (m : t V) : t V :=
  match m with
  | [] => [(k, v)]
  | (k', v') :: m' =>
      if k' =? k then (k, v) :: m' else (k', v') :: set k v m'
  end.

Definition keys {V : Type} (m : t V) : list Z := map fst m.

Definition values {V : Type} (m : t V) : list V := map snd m.

Definition size {V : Type} (m : t V) : Z := Z.of_nat (length m).

End JsMap.

(** ** [Array.prototype.sort]

    ECMAScript requires the sort to be stable and, for a consistent
    comparator, to order [a] before [b] whenever [compareFn a b < 0].  The
    result is then determined by the input; a stable insertion sort
    computes it.  An element is inserted in front of the elements that
    followed it in the input, so it stays in front of those it compares
    equal to. *)

Section ArraySort.

Context {A : Type}.
Variable compareFn : A -> A -> Z.

Fixpoint sort_insert (x : A) (l : list A) : list A :=
  match l with
  | [] => [x]
  | y :: l' =>
      if compareFn x y <=? 0 then x :: y :: l' else y :: sort_insert x l'
  end.

Definition Array_sort (l : list A) : list A :=
  fold_right sort_insert [] l.

End ArraySort.

(** ** [shared/schema.ts]: the records *)

Definition Date : Type := Z.

(** [WorkoutLog = typeof workoutLogs.$inferSelect]; a nullable column is an
    [option] whose [None] is [null]. *)
Record WorkoutLog : Type := mkWorkoutLog {
  id : Z;
  userId : Z;
  workoutId : option Z;
  date : Date;
  completedExercises : Z;
  waterIntake : Z;
  duration : Z;
  notes : option string
}.

(** [InsertWorkoutLog = z.infer<typeof insertWorkoutLogSchema>]; the outer
    [option] of a field is [None] when the property is [undefined], and a
    nullable field has an inner [option] whose [None] is [null]. *)
Record InsertWorkoutLog : Type := mkInsertWorkoutLog {
  in_userId : Z;
  in_workoutId : option (option Z);
  in_date : option Date;
  in_completedExercises : option Z;
  in_waterIntake : option Z;
  in_duration : option Z;
  in_notes : option (option string)
}.

Record WorkoutStats : Type := mkWorkoutStats {
  totalWorkouts : Z;
  totalWaterIntake : Z;
  totalDuration : Z;
  averageWaterPerWorkout : Q;
  completionPercentage : Q;
  lastWorkoutDate : option Date
}.

(** [x !== undefined ? x : d] *)
Definition orDefault {A : Type} (x : option A) (d : A) : A :=
  match x with Some v => v | None => d end.

(** ** [server/storage.ts]: [MemStorage], the workout-log part

    The maps of users, workouts and workout days and their counters are
    left out: no method below reads or writes them. *)

Record MemStorage : Type := mkMemStorage {
  workoutLogs : JsMap.t WorkoutLog;
  currentWorkoutLogId : Z
}.

(** [constructor()] *)
Definition MemStorage_new : MemStorage :=
  {| workoutLogs := JsMap.empty; currentWorkoutLogId := 1 |}.

(** [createWorkoutLog(log)]; [now] is the value of [new Date()]. *)
Definition createWorkoutLog (log : InsertWorkoutLog) (now : Date)
    (this : MemStorage) : WorkoutLog * MemStorage :=
  let id := currentWorkoutLogId this in
  let this1 := {| workoutLogs := workoutLogs this;
                  currentWorkoutLogId := currentWorkoutLogId this + 1 |} in
  let workoutLog := {|
    id := id;
    userId := in_userId log;
    workoutId := orDefault (in_workoutId log) None;
    date := orDefault (in_date log) now;
    completedExercises := orDefault (in_completedExercises log) 0;
    waterIntake := orDefault (in_waterIntake log) 0;
    duration := orDefault (in_duration log) 0;
    notes := orDefault (in_notes log) None
  |} in
  (workoutLog,
   {| workoutLogs := JsMap.set id workoutLog (workoutLogs this1);
      currentWorkoutLogId := currentWorkoutLogId this1 |}).

(** The comparator of [getWorkoutLogs]:
    [(a, b) => b.date.getTime() - a.date.getTime()]. *)
Definition byDateDesc (a b : WorkoutLog) : Z := date b - date a.

(** [if (bound) logs = logs.filter(p)]: a [Date] object is truthy, so the
    filter runs exactly when the argument was passed. *)
Definition filterIf {A : Type} (bound : option Date)
    (p : Date -> A -> bool) (logs : list A) : list A :=
  match bound with
  | Some d => filter (p d) logs
  | None => logs
  end.

(** [getWorkoutLogs(userId, startDate?, endDate?)] *)
Definition getWorkoutLogs (this : MemStorage) (uid : Z)
    (startDate endDate : option Date) : list WorkoutLog :=
  let logs := filter (fun log => userId log =? uid)
                     (JsMap.values (workoutLogs this)) in
  let logs := filterIf startDate (fun d log => date log >=? d) logs in
  let logs := filterIf endDate (fun d log => date log <=? d) logs in
  Array_sort byDateDesc logs.

(** [getWorkoutLogs(userId, startDate, endDate)] as [getWorkoutStats]
    calls it: both bounds are passed, so both filters run, and [startDate]
    may be the invalid date ([None]), whose time value is [NaN]:
    [log.date >= startDate] is then false for every log. *)
Definition getWorkoutLogsBetween (this : MemStorage) (uid : Z)
    (startDate : option Date) (endDate : Date) : list WorkoutLog :=
  let logs := filter (fun log => userId log =? uid)
                     (JsMap.values (workoutLogs this)) in
  let logs := filter (fun log => match startDate with
                                 | Some d => date log >=? d
                                 | None => false
                                 end) logs in
  let logs := filter (fun log => date log <=? endDate) logs in
  Array_sort byDateDesc logs.

(** [Math.floor(days / 7)] for an integer [days]: [Z.div] rounds towards
    minus infinity when the divisor is positive. *)
Definition expectedWorkoutsOf (days : Z) : Z := (days / 7) * 3.

Section Stats.

(** [d.setDate(d.getDate() - days)] moves [d] back by [days] calendar
    days of the host's time zone; the zone is a parameter.  The result is
    [None] when [setDate] leaves the invalid date: a time value further
    than 8.64e15 ms from the epoch is not a date. *)
Variable daysBefore : Date -> Z -> option Date.

(** [getWorkoutStats(userId, days = 30)]; [now1] and [now2] are the
    values of the two [new Date()], in the order of the source. *)
Definition getWorkoutStats (this : MemStorage) (uid : Z)
    (days_arg : option Z) (now1 now2 : Date) : WorkoutStats :=
  let days := orDefault days_arg 30 in
  let endDate := now1 in
  let startDate := daysBefore now2 days in
  let logs := getWorkoutLogsBetween this uid startDate endDate in
  if (Z.of_nat (length logs) =? 0) then
    {| totalWorkouts := 0;
       totalWaterIntake := 0;
       totalDuration := 0;
       averageWaterPerWorkout := 0;
       completionPercentage := 0;
       lastWorkoutDate := None |}
  else
    let totalWorkouts := Z.of_nat (length logs) in
    let totalWaterIntake :=
      fold_left (fun sum log => sum + waterIntake log) logs 0 in
    let totalDuration :=
      fold_left (fun sum log => sum + duration log) logs 0 in
    let averageWaterPerWorkout :=
      if totalWorkouts >? 0
      then (inject_Z totalWaterIntake / inject_Z totalWorkouts)%Q
      else 0%Q in
    let expectedWorkouts := expectedWorkoutsOf days in
    let completionPercentage :=
      if expectedWorkouts >? 0
      then Qmin 100 ((inject_Z totalWorkouts / inject_Z expectedWorkouts)
                     * 100)%Q
      else 0%Q in
    let lastWorkoutDate :=
      if Z.of_nat (length logs) >? 0
      then match logs with
           | log0 :: _ => Some (date log0)
           | [] => None
           end
      else None in
    {| totalWorkouts := totalWorkouts;
       totalWaterIntake := totalWaterIntake;
       totalDuration := totalDuration;
       averageWaterPerWorkout := averageWaterPerWorkout;
       completionPercentage := completionPercentage;
       lastWorkoutDate := lastWorkoutDate |}.

End Stats.

(** [TimeClip]: the time values of dates are those within 8.64e15 ms of
    the epoch. *)
Definition TimeClip (time : Z) : option Date :=
  if Z.abs time <=? 8640000000000000 then Some time else None.

(** A host whose zone has no clock changes (UTC): a day is 86400000 ms. *)
Definition utcDaysBefore (d : Date) (days : Z) : option Date :=
  TimeClip (d - days * 86400000).

(** A history of the log store: the [createWorkoutLog] calls made on it, the
    oldest first, each with the clock value it read.  [run] performs them
    and returns the records the calls returned, in the same order. *)
Fixpoint run (calls : list (InsertWorkoutLog * Date)) (this : MemStorage)
    : list WorkoutLog * MemStorage :=
  match calls with
  | [] => ([], this)
  | (log, now) :: calls' =>
      let (r, this1) := createWorkoutLog log now this in
      let (rs, this2) := run calls' this1 in
      (r :: rs, this2)
  end.

(** The storage objects a program can hold: the module creates
    [new MemStorage()] once and only [createWorkoutLog] writes to the log
    map or to its counter. *)
Inductive reachable : MemStorage -> Prop :=
| reachable_new : reachable MemStorage_new
| reachable_create : forall this log now,
    reachable this -> reachable (snd (createWorkoutLog log now this)).

(** ** [parseInt(string)], no radix argument

    Strings are sequences of code units below 256.  The result is [None]
    for [NaN].  Steps as in ECMAScript: skip leading white space, read a
    sign, read [0x]/[0X] and switch to radix 16, read the longest run of
    digits of the radix; no digit gives [NaN]. *)

Definition isWhiteSpace (c : ascii) : bool :=
  let n := N_of_ascii c in
  ((n =? 9) || (n =? 10) || (n =? 11) || (n =? 12) || (n =? 13)
   || (n =? 32) || (n =? 160))%N.

Fixpoint trimStart (s : string) : string :=
  match s with
  | EmptyString => EmptyString
  | String c s' => if isWhiteSpace c then trimStart s' else s
  end.

Definition digitValue (c : ascii) : option Z :=
  let n := Z.of_N (N_of_ascii c) in
  if (48 <=? n) && (n <=? 57) then Some (n - 48)
  else if (97 <=? n) && (n <=? 122) then Some (n - 87)
  else if (65 <=? n) && (n <=? 90) then Some (n - 55)
  else None.

Definition radixDigit (R : Z) (c : ascii) : option Z :=
  match digitValue c with
  | Some v => if v <? R then Some v else None
  | None => None
  end.

(** The value of the longest prefix of [s] made of digits of radix [R],
    continuing the value [acc] read so far ([None]: nothing read yet). *)
Fixpoint digitsPrefix (R : Z) (s : string) (acc : option Z) : option Z :=
  match s with
  | EmptyString => acc
  | String c s' =>
      match radixDigit R c with
      | Some v => digitsPrefix R s' (Some (orDefault acc 0 * R + v))
      | None => acc
      end
  end.

(** A leading [-] makes the sign negative; a leading [+] or [-] is
    removed. *)
Definition readSign (str : string) : Z * string :=
  match str with
  | String "-"%char str' => (-1, str')
  | String "+"%char str' => (1, str')
  | _ => (1, str)
  end.

(** A leading [0x] or [0X] is removed and selects radix 16. *)
Definition readRadix (str : string) : Z * string :=
  match str with
  | String "0"%char (String "x"%char str') => (16, str')
  | String "0"%char (String "X"%char str') => (16, str')
  | _ => (10, str)
  end.

Definition parseInt (input : string) : option Z :=
  let str := trimStart input in
  let '(sign, str) := readSign str in
  let '(R, str) := readRadix str in
  match digitsPrefix R str None with
  | None => None
  | Some mathInt => Some (sign * mathInt)
  end.

(** ** [server/routes.ts]: [GET /api/stats]

    [req.query.days] is [None] when the query has no [days]; the empty
    string is falsy.  [queryDays] is the value of the local [days] at the
    call of [storage.getWorkoutStats]. *)

Definition queryDays (query_days : option string) : Z :=
  let days := 30 in
  match query_days with
  | Some EmptyString => days
  | Some s =>
      match parseInt s with
      | None => 30
      | Some days => if days <=? 0 then 30 else days
      end
  | None => days
  end.

Inductive StatsResponse : Type :=
| Stats_sendStatus401
| Stats_json (stats : WorkoutStats).

(** [auth] is [None] when [req.isAuthenticated()] is false and
    [Some req.user.id] otherwise. *)
Definition getApiStats (daysBefore : Date -> Z -> option Date)
    (auth : option Z) (query_days : option string) (now1 now2 : Date)
    (storage : MemStorage) : StatsResponse :=
  match auth with
  | None => Stats_sendStatus401
  | Some userId =>
      let days := queryDays query_days in
      Stats_json (getWorkoutStats daysBefore storage userId (Some days)
                                  now1 now2)
  end.

(** ** [shared/schema.ts]: [insertWorkoutLogSchema]

    [createInsertSchema(workoutLogs).pick(...).partial(...)].  drizzle-zod
    derives a field per column: an [integer] column is [z.number()] with
    the library's own checks, a [timestamp] column [z.date()], a [text]
    column [z.string()]; a column without [notNull()] is nullable and
    optional, a column with a default is optional.  No column of
    [workoutLogs] declares a lower bound, so the derived schema has none
    of its own. *)

Inductive JsValue : Type :=
| VUndefined
| VNull
| VBool (b : bool)
| VNumber (n : Z)
| VString (s : string)
| VDate (t : Date)
| VObject.

Inductive ZodIssueCode : Type := invalid_type | out_of_range.

Record ZodIssue : Type := mkZodIssue { code : ZodIssueCode; path : string }.

(** The body of the request with [userId] spread over it:
    [{ ...req.body, userId }].  Keys the schema does not pick are dropped by
    [parse]. *)
Record LogInput : Type := mkLogInput {
  v_userId : JsValue;
  v_workoutId : JsValue;
  v_date : JsValue;
  v_completedExercises : JsValue;
  v_waterIntake : JsValue;
  v_duration : JsValue;
  v_notes : JsValue
}.

Definition withUserId (body : LogInput) (userId : Z) : LogInput :=
  {| v_userId := VNumber userId;
     v_workoutId := v_workoutId body;
     v_date := v_date body;
     v_completedExercises := v_completedExercises body;
     v_waterIntake := v_waterIntake body;
     v_duration := v_duration body;
     v_notes := v_notes body |}.

Section InsertSchema.

(** The checks the library attaches to an [integer] column, which depend on
    its version: none, or the 32-bit range. *)
Variable integerColumn : Z -> bool.

Definition zNumber (key : string) (v : JsValue) : list ZodIssue + Z :=
  match v with
  | VNumber n =>
      if integerColumn n then inr n
      else inl [mkZodIssue out_of_range key]
  | _ => inl [mkZodIssue invalid_type key]
  end.

Definition zDate (key : string) (v : JsValue) : list ZodIssue + Date :=
  match v with
  | VDate t => inr t
  | _ => inl [mkZodIssue invalid_type key]
  end.

Definition zString (key : string) (v : JsValue) : list ZodIssue + string :=
  match v with
  | VString s => inr s
  | _ => inl [mkZodIssue invalid_type key]
  end.

Definition zOptional {A : Type} (schema : string -> JsValue -> list ZodIssue + A)
    (key : string) (v : JsValue) : list ZodIssue + option A :=
  match v with
  | VUndefined => inr None
  | _ => match schema key v with
         | inl issues => inl issues
         | inr a => inr (Some a)
         end
  end.

Definition zNullable {A : Type} (schema : string -> JsValue -> list ZodIssue + A)
    (key : string) (v : JsValue) : list ZodIssue + option A :=
  match v with
  | VNull => inr None
  | _ => match schema key v with
         | inl issues => inl issues
         | inr a => inr (Some a)
         end
  end.

Definition issuesOf {A : Type} (r : list ZodIssue + A) : list ZodIssue :=
  match r with inl issues => issues | inr _ => [] end.

(** [insertWorkoutLogSchema.parse(data)]: every key is checked and the
    issues of all keys are gathered; [inl] is the thrown [ZodError]. *)
Definition insertWorkoutLogSchema_parse (data : LogInput)
    : list ZodIssue + InsertWorkoutLog :=
  let r_userId := zNumber "userId" (v_userId data) in
  let r_workoutId :=
    zOptional (zNullable zNumber) "workoutId" (v_workoutId data) in
  let r_date := zOptional zDate "date" (v_date data) in
  let r_completedExercises :=
    zOptional zNumber "completedExercises" (v_completedExercises data) in
  let r_waterIntake := zOptional zNumber "waterIntake" (v_waterIntake data) in
  let r_duration := zOptional zNumber "duration" (v_duration data) in
  let r_notes := zOptional (zNullable zString) "notes" (v_notes data) in
  match r_userId, r_workoutId, r_date, r_completedExercises,
        r_waterIntake, r_duration, r_notes with
  | inr u, inr w, inr d, inr c, inr wi, inr du, inr n =>
      inr {| in_userId := u; in_workoutId := w; in_date := d;
             in_completedExercises := c; in_waterIntake := wi;
             in_duration := du; in_notes := n |}
  | _, _, _, _, _, _, _ =>
      inl (issuesOf r_userId ++ issuesOf r_workoutId ++ issuesOf r_date
           ++ issuesOf r_completedExercises ++ issuesOf r_waterIntake
           ++ issuesOf r_duration ++ issuesOf r_notes)
  end.

(** ** [server/routes.ts]: [POST /api/logs]

    [createWorkoutLog] has no failing path, so the [500] answer of the
    [catch] block is never sent. *)

Inductive LogsResponse : Type :=
| Logs_sendStatus401
| Logs_status201 (workoutLog : WorkoutLog)
| Logs_status400 (errors : list ZodIssue).

Definition postApiLogs (auth : option Z) (body : LogInput) (now : Date)
    (storage : MemStorage) : LogsResponse * MemStorage :=
  match auth with
  | None => (Logs_sendStatus401, storage)
  | Some userId =>
      match insertWorkoutLogSchema_parse (withUserId body userId) with
      | inr validatedData =>
          let (workoutLog, storage') :=
            createWorkoutLog validatedData now storage in
          (Logs_status201 workoutLog, storage')
      | inl errors => (Logs_status400 errors, storage)
      end
  end.

End InsertSchema.

(** The two known versions of the [integer] column check. *)
Definition anyInteger (n : Z) : bool := true.

Definition int32Range (n : Z) : bool :=
  (-2147483648 <=? n) && (n <=? 2147483647).


(** ** The vocabulary of the specification *)

(** A log is selected by [listLogs(userId, start, end)] when it belongs to
    the user and its date lies between the bounds that are given. *)
Definition selected (uid : Z) (startDate endDate : option Date)
    (log : WorkoutLog) : bool :=
  (userId log =? uid)
  && match startDate with Some d => d <=? date log | None => true end
  && match endDate with Some d => date log <=? d | None => true end.

(** The stored logs that are in the window, in the order of the store. *)
Definition inWindow (this : MemStorage) (uid : Z)
    (startDate endDate : option Date) : list WorkoutLog :=
  filter (selected uid startDate endDate) (JsMap.values (workoutLogs this)).

Definition sumZ (l : list Z) : Z := fold_right Z.add 0 l.

(** Most recent first. *)
Definition newerOrSame (a b : WorkoutLog) : Prop := date b <= date a.

Definition zeroStats : WorkoutStats :=
  {| totalWorkouts := 0;
     totalWaterIntake := 0;
     totalDuration := 0;
     averageWaterPerWorkout := 0;
     completionPercentage := 0;
     lastWorkoutDate := None |}.

(** A numeric parameter in the sense of the specification: an optional
    sign, then decimal digits and nothing else. *)
Definition isDigit (c : ascii) : bool :=
  let n := Z.of_N (N_of_ascii c) in (48 <=? n) && (n <=? 57).

Fixpoint digitsValue (s : string) (acc : Z) : option Z :=
  match s with
  | EmptyString => Some acc
  | String c s' =>
      if isDigit c
      then digitsValue s' (acc * 10 + (Z.of_N (N_of_ascii c) - 48))
      else None
  end.

Definition unsignedValue (s : string) : option Z :=
  match s with
  | EmptyString => None
  | _ => digitsValue s 0
  end.

Definition decimalValue (s : string) : option Z :=
  match s with
  | String "-"%char s' => option_map Z.opp (unsignedValue s')
  | String "+"%char s' => unsignedValue s'
  | _ => unsignedValue s
  end.

(** What holds of every storage object the program can hold: the keys of
    the log map are distinct and below the counter, and a log is stored
    under its own identifier. *)
Definition storeInv (this : MemStorage) : Prop :=
  NoDup (JsMap.keys (workoutLogs this))
  /\ Forall (fun kv => fst kv < currentWorkoutLogId this
                       /\ id (snd kv) = fst kv)
            (workoutLogs this).

(** ** Sample data

    Scenario A of the specification: user 1 logs five sessions, one a day,
    with 100 to 500 ml of water; user 2 logs one.  Dates are in
    milliseconds. *)

Definition day : Z := 86400000.

Definition session (uid : Z) (at_ : Date) (water seconds : Z)
    : InsertWorkoutLog :=
  {| in_userId := uid; in_workoutId := None; in_date := Some at_;
     in_completedExercises := None; in_waterIntake := Some water;
     in_duration := Some seconds; in_notes := None |}.

Definition scenarioA_calls : list (InsertWorkoutLog * Date) :=
  [ (session 1 (1 * day) 100 1800, 1 * day);
    (session 1 (2 * day) 200 1500, 2 * day);
    (session 2 (2 * day) 750 3600, 2 * day);
    (session 1 (3 * day) 300 2400, 3 * day);
    (session 1 (4 * day) 400 2000, 4 * day);
    (session 1 (5 * day) 500 2700, 5 * day) ].

Definition scenarioA : MemStorage := snd (run scenarioA_calls MemStorage_new).

(** A store with a single log, dated at the instant 0. *)
Definition oneLog : MemStorage :=
  snd (createWorkoutLog (session 1 0 250 600) 0 MemStorage_new).

(** A request body whose only field is [waterIntake: -5]. *)
Definition negativeWater : LogInput :=
  {| v_userId := VUndefined; v_workoutId := VUndefined; v_date := VUndefined;
     v_completedExercises := VUndefined; v_waterIntake := VNumber (-5);
     v_duration := VUndefined; v_notes := VUndefined |}.

(** ** Integers in template literals

    [`${n}`] for an integer [n] of magnitude below 2^53 is its decimal
    numeral, with a leading [-] when negative; above, a number is not
    every integer and its text is rounded, and from 10^21 on it is
    written with an exponent.  [safeInteger] is the range in which
    [Number_toString] is the text of the template literal.  The digits are
    produced from the last one; [fuel] bounds their number and is taken
    from the binary size of [n]. *)

Definition safeInteger (n : Z) : Prop := Z.abs n < 2 ^ 53.

Definition digitChar (d : Z) : ascii := ascii_of_N (Z.to_N (48 + d)).

Fixpoint digitsOf (fuel : nat) (n : Z) (acc : string) : string :=
  match fuel with
  | O => acc
  | S fuel' =>
      let acc' := String (digitChar (n mod 10)) acc in
      if n / 10 =? 0 then acc' else digitsOf fuel' (n / 10) acc'
  end.

Definition Number_toString (n : Z) : string :=
  if n <? 0
  then String "-"%char
              (digitsOf (S (Z.to_nat (Z.log2 (- n)))) (- n) EmptyString)
  else digitsOf (S (Z.to_nat (Z.log2 n))) n EmptyString.

(** ** The statistics card of the client ([WorkoutStatsComponent])

    [queryFn] requests [`/api/stats?days=${days}`]; the server reads the
    text after [days=] as [req.query.days]. *)
Definition statsQuery (days : Z) : option string := Some (Number_toString days).


(** ** [shared/schema.ts]: users, workouts and workout days

    The select types of the three other tables and the insert types
    inferred from their schemas.  As for the logs, a nullable column is an
    [option] whose [None] is [null], and an optional property has an outer
    [option] whose [None] is [undefined]. *)

Module User.
Record t : Type := mk {
  id : Z;
  username : string;
  password : string;
  fullName : option string;
  age : option Z;
  profileImage : option string;
  weight : option Z;
  height : option Z
}.
End User.

Module InsertUser.
Record t : Type := mk {
  username : string;
  password : string;
  fullName : option (option string);
  age : option (option Z);
  weight : option (option Z);
  height : option (option Z)
}.
End InsertUser.

Module Workout.
Record t : Type := mk {
  id : Z;
  userId : Z;
  name : string;
  pdfUrl : option string
}.
End Workout.

Module InsertWorkout.
Record t : Type := mk {
  userId : Z;
  name : string;
  pdfUrl : option (option string)
}.
End InsertWorkout.

Module Exercise.
Record t : Type := mk {
  name : string;
  sets : Z;
  reps : string
}.
End Exercise.

Module WorkoutDay.
Record t : Type := mk {
  id : Z;
  workoutId : Z;
  day : string;
  name : string;
  exercises : list Exercise.t
}.
End WorkoutDay.

(** [exercises] is [None] for a value that is not an array. *)
Module InsertWorkoutDay.
Record t : Type := mk {
  workoutId : Z;
  day : string;
  name : string;
  exercises : option (list Exercise.t)
}.
End InsertWorkoutDay.

(** [x || d]: [undefined], [null], the empty string and 0 are falsy. *)
Definition orString (x : option (option string)) (d : option string)
    : option string :=
  match x with
  | Some (Some EmptyString) => d
  | Some (Some s) => Some s
  | _ => d
  end.

Definition orNumber (x : option (option Z)) (d : option Z) : option Z :=
  match x with
  | Some (Some n) => if n =? 0 then d else Some n
  | _ => d
  end.

(** ** [server/storage.ts]: [MemStorage], the users

    The fields of [MemStorage] that the user methods read and write. *)

Record UserStore : Type := mkUserStore {
  users : JsMap.t User.t;
  currentUserId : Z
}.

Definition UserStore_new : UserStore :=
  {| users := JsMap.empty; currentUserId := 1 |}.

Definition getUser (this : UserStore) (id : Z) : option User.t :=
  JsMap.get id (users this).

(** [Array.from(this.users.values()).find(...)], the first match. *)
Definition getUserByUsername (this : UserStore) (username : string)
    : option User.t :=
  find (fun user => String.eqb (User.username user) username)
       (JsMap.values (users this)).

Definition createUser (insertUser : InsertUser.t) (this : UserStore)
    : User.t * UserStore :=
  let id := currentUserId this in
  let user := {|
    User.id := id;
    User.username := InsertUser.username insertUser;
    User.password := InsertUser.password insertUser;
    User.fullName := orString (InsertUser.fullName insertUser) None;
    User.age := orNumber (InsertUser.age insertUser) None;
    User.profileImage := None;
    User.weight := orNumber (InsertUser.weight insertUser) (Some 70000);
    User.height := orNumber (InsertUser.height insertUser) (Some 170)
  |} in
  (user,
   {| users := JsMap.set id user (users this);
      currentUserId := currentUserId this + 1 |}).

(** [inl] is the message of the thrown [Error]. *)
Definition updateUserProfileImage (userId : Z) (profileImage : string)
    (this : UserStore) : string + User.t * UserStore :=
  match JsMap.get userId (users this) with
  | None => inl "User not found"%string
  | Some user =>
      let updatedUser := {|
        User.id := User.id user;
        User.username := User.username user;
        User.password := User.password user;
        User.fullName := User.fullName user;
        User.age := User.age user;
        User.profileImage := Some profileImage;
        User.weight := User.weight user;
        User.height := User.height user
      |} in
      inr (updatedUser,
           {| users := JsMap.set userId updatedUser (users this);
              currentUserId := currentUserId this |})
  end.

Definition updateUserStats (userId : Z) (weight height : Z)
    (fullName : option string) (age : option Z) (this : UserStore)
    : string + User.t * UserStore :=
  match JsMap.get userId (users this) with
  | None => inl "User not found"%string
  | Some user =>
      let updatedUser := {|
        User.id := User.id user;
        User.username := User.username user;
        User.password := User.password user;
        User.fullName :=
          match fullName with Some s => Some s | None => User.fullName user end;
        User.age := match age with Some n => Some n | None => User.age user end;
        User.profileImage := User.profileImage user;
        User.weight := Some weight;
        User.height := Some height
      |} in
      inr (updatedUser,
           {| users := JsMap.set userId updatedUser (users this);
              currentUserId := currentUserId this |})
  end.

(** The user stores a program can hold. *)
Inductive reachableUsers : UserStore -> Prop :=
| reachableUsers_new : reachableUsers UserStore_new
| reachableUsers_create : forall this insertUser,
    reachableUsers this -> reachableUsers (snd (createUser insertUser this))
| reachableUsers_image : forall this userId profileImage user this',
    reachableUsers this ->
    updateUserProfileImage userId profileImage this = inr (user, this') ->
    reachableUsers this'
| reachableUsers_stats : forall this userId weight height fullName age
                                user this',
    reachableUsers this ->
    updateUserStats userId weight height fullName age this
    = inr (user, this') ->
    reachableUsers this'.

(** ** [server/storage.ts]: [MemStorage], workouts and workout days *)

Record PlanStore : Type := mkPlanStore {
  workouts : JsMap.t Workout.t;
  workoutDays : JsMap.t WorkoutDay.t;
  currentWorkoutId : Z;
  currentWorkoutDayId : Z
}.

Definition PlanStore_new : PlanStore :=
  {| workouts := JsMap.empty; workoutDays := JsMap.empty;
     currentWorkoutId := 1; currentWorkoutDayId := 1 |}.

Definition getWorkouts (this : PlanStore) (userId : Z) : list Workout.t :=
  filter (fun workout => Workout.userId workout =? userId)
         (JsMap.values (workouts this)).

Definition getWorkout (this : PlanStore) (id : Z) : option Workout.t :=
  JsMap.get id (workouts this).

Definition createWorkout (insertWorkout : InsertWorkout.t) (this : PlanStore)
    : Workout.t * PlanStore :=
  let id := currentWorkoutId this in
  let workout := {|
    Workout.id := id;
    Workout.userId := InsertWorkout.userId insertWorkout;
    Workout.name := InsertWorkout.name insertWorkout;
    Workout.pdfUrl := None
  |} in
  (workout,
   {| workouts := JsMap.set id workout (workouts this);
      workoutDays := workoutDays this;
      currentWorkoutId := currentWorkoutId this + 1;
      currentWorkoutDayId := currentWorkoutDayId this |}).

Definition getWorkoutDays (this : PlanStore) (workoutId : Z)
    : list WorkoutDay.t :=
  filter (fun workoutDay => WorkoutDay.workoutId workoutDay =? workoutId)
         (JsMap.values (workoutDays this)).

Definition getWorkoutDay (this : PlanStore) (id : Z) : option WorkoutDay.t :=
  JsMap.get id (workoutDays this).

Definition createWorkoutDay (insertWorkoutDay : InsertWorkoutDay.t)
    (this : PlanStore) : WorkoutDay.t * PlanStore :=
  let id := currentWorkoutDayId this in
  let workoutDay := {|
    WorkoutDay.id := id;
    WorkoutDay.workoutId := InsertWorkoutDay.workoutId insertWorkoutDay;
    WorkoutDay.day := InsertWorkoutDay.day insertWorkoutDay;
    WorkoutDay.name := InsertWorkoutDay.name insertWorkoutDay;
    WorkoutDay.exercises :=
      match InsertWorkoutDay.exercises insertWorkoutDay with
      | Some exercises => exercises
      | None => []
      end
  |} in
  (workoutDay,
   {| workouts := workouts this;
      workoutDays := JsMap.set id workoutDay (workoutDays this);
      currentWorkoutId := currentWorkoutId this;
      currentWorkoutDayId := currentWorkoutDayId this + 1 |}).

Definition updateWorkoutPdf (id : Z) (pdfUrl : string) (this : PlanStore)
    : string + Workout.t * PlanStore :=
  match JsMap.get id (workouts this) with
  | None => inl "Workout not found"%string
  | Some workout =>
      let updatedWorkout := {|
        Workout.id := Workout.id workout;
        Workout.userId := Workout.userId workout;
        Workout.name := Workout.name workout;
        Workout.pdfUrl := Some pdfUrl
      |} in
      inr (updatedWorkout,
           {| workouts := JsMap.set id updatedWorkout (workouts this);
              workoutDays := workoutDays this;
              currentWorkoutId := currentWorkoutId this;
              currentWorkoutDayId := currentWorkoutDayId this |})
  end.

(** The plan stores a program can hold. *)
Inductive reachablePlans : PlanStore -> Prop :=
| reachablePlans_new : reachablePlans PlanStore_new
| reachablePlans_workout : forall this insertWorkout,
    reachablePlans this ->
    reachablePlans (snd (createWorkout insertWorkout this))
| reachablePlans_day : forall this insertWorkoutDay,
    reachablePlans this ->
    reachablePlans (snd (createWorkoutDay insertWorkoutDay this))
| reachablePlans_pdf : forall this id pdfUrl workout this',
    reachablePlans this ->
    updateWorkoutPdf id pdfUrl this = inr (workout, this') ->
    reachablePlans this'.

(** A map filled under a counter: the keys grow in the order of the map and
    stay below the counter, and a record is stored under its own
    identifier. *)
Definition counted {V : Type} (idOf : V -> Z) (m : JsMap.t V) (counter : Z)
    : Prop :=
  StronglySorted Z.lt (JsMap.keys m)
  /\ Forall (fun kv => fst kv < counter /\ idOf (snd kv) = fst kv) m.

(** ** [server/routes.ts]: the workout routes

    [req.params.id] is a string and [parseInt] turns it into the key;
    [Map.get(NaN)] finds nothing, since every key is a counter value. *)

Definition workoutOfParam (storage : PlanStore) (param : string)
    : option Workout.t :=
  match parseInt param with
  | Some id => getWorkout storage id
  | None => None
  end.

(** [GET /api/workouts] *)
Inductive WorkoutsResponse : Type :=
| Workouts_sendStatus401
| Workouts_json (workouts : list Workout.t).

Definition getApiWorkouts (auth : option Z) (storage : PlanStore)
    : WorkoutsResponse :=
  match auth with
  | None => Workouts_sendStatus401
  | Some userId => Workouts_json (getWorkouts storage userId)
  end.

(** [POST /api/workouts]; the body is not validated, and the bodies of the
    type [InsertWorkout] are the ones represented.  [userId] replaces the
    one of the body. *)
Inductive CreatedWorkoutResponse : Type :=
| CreatedWorkout_sendStatus401
| CreatedWorkout_status201 (workout : Workout.t).

Definition postApiWorkouts (auth : option Z) (body : InsertWorkout.t)
    (storage : PlanStore) : CreatedWorkoutResponse * PlanStore :=
  match auth with
  | None => (CreatedWorkout_sendStatus401, storage)
  | Some userId =>
      let (workout, storage') :=
        createWorkout {| InsertWorkout.userId := userId;
                         InsertWorkout.name := InsertWorkout.name body;
                         InsertWorkout.pdfUrl := InsertWorkout.pdfUrl body |}
                      storage in
      (CreatedWorkout_status201 workout, storage')
  end.

(** [GET /api/workouts/:id] *)
Inductive WorkoutResponse : Type :=
| Workout_sendStatus401
| Workout_status404
| Workout_sendStatus403
| Workout_json (workout : Workout.t).

Definition getApiWorkout (auth : option Z) (id_param : string)
    (storage : PlanStore) : WorkoutResponse :=
  match auth with
  | None => Workout_sendStatus401
  | Some userId =>
      match workoutOfParam storage id_param with
      | None => Workout_status404
      | Some workout =>
          if negb (Workout.userId workout =? userId)
          then Workout_sendStatus403
          else Workout_json workout
      end
  end.

(** [GET /api/workouts/:workoutId/days] *)
Inductive DaysResponse : Type :=
| Days_sendStatus401
| Days_status404
| Days_sendStatus403
| Days_json (workoutDays : list WorkoutDay.t).

Definition getApiWorkoutDays (auth : option Z) (workoutId_param : string)
    (storage : PlanStore) : DaysResponse :=
  match auth with
  | None => Days_sendStatus401
  | Some userId =>
      match parseInt workoutId_param with
      | None => Days_status404
      | Some workoutId =>
          match getWorkout storage workoutId with
          | None => Days_status404
          | Some workout =>
              if negb (Workout.userId workout =? userId)
              then Days_sendStatus403
              else Days_json (getWorkoutDays storage workoutId)
          end
      end
  end.

(** [POST /api/workouts/:workoutId/days]; [workoutId] replaces the one of
    the body. *)
Inductive CreatedDayResponse : Type :=
| CreatedDay_sendStatus401
| CreatedDay_status404
| CreatedDay_sendStatus403
| CreatedDay_status201 (workoutDay : WorkoutDay.t).

Definition postApiWorkoutDays (auth : option Z) (workoutId_param : string)
    (body : InsertWorkoutDay.t) (storage : PlanStore)
    : CreatedDayResponse * PlanStore :=
  match auth with
  | None => (CreatedDay_sendStatus401, storage)
  | Some userId =>
      match parseInt workoutId_param with
      | None => (CreatedDay_status404, storage)
      | Some workoutId =>
          match getWorkout storage workoutId with
          | None => (CreatedDay_status404, storage)
          | Some workout =>
              if negb (Workout.userId workout =? userId)
              then (CreatedDay_sendStatus403, storage)
              else
                let (workoutDay, storage') :=
                  createWorkoutDay
                    {| InsertWorkoutDay.workoutId := workoutId;
                       InsertWorkoutDay.day := InsertWorkoutDay.day body;
                       InsertWorkoutDay.name := InsertWorkoutDay.name body;
                       InsertWorkoutDay.exercises :=
                         InsertWorkoutDay.exercises body |}
                    storage in
                (CreatedDay_status201 workoutDay, storage')
          end
      end
  end.

(** ** [server/routes.ts]: [PUT /api/user/stats]

    The four properties the handler takes from the body. *)

Record StatsBody : Type := mkStatsBody {
  b_weight : JsValue;
  b_height : JsValue;
  b_fullName : JsValue;
  b_age : JsValue
}.

(** [!v] is [negb (truthy v)]. *)
Definition truthy (v : JsValue) : bool :=
  match v with
  | VUndefined => false
  | VNull => false
  | VBool b => b
  | VNumber n => negb (n =? 0)
  | VString s => negb (String.eqb s EmptyString)
  | VDate _ => true
  | VObject => true
  end.

Definition typeofNumber (v : JsValue) : bool :=
  match v with VNumber _ => true | _ => false end.

Definition typeofString (v : JsValue) : bool :=
  match v with VString _ => true | _ => false end.

Definition isUndefined (v : JsValue) : bool :=
  match v with VUndefined => true | _ => false end.

(** The number a value is, where the handler has checked that it is one. *)
Definition asNumber (v : JsValue) : Z :=
  match v with VNumber n => n | _ => 0 end.

(** The three messages of the [400] answers: weight and height out of
    range, full name invalid, age out of range. *)
Inductive StatsError : Type :=
| invalidWeightHeight
| invalidFullName
| invalidAge.

(** [const { password, ...userWithoutPassword } = updatedUser] *)
Record UserWithoutPassword : Type := mkUserWithoutPassword {
  pub_id : Z;
  pub_username : string;
  pub_fullName : option string;
  pub_age : option Z;
  pub_profileImage : option string;
  pub_weight : option Z;
  pub_height : option Z
}.

Definition withoutPassword (user : User.t) : UserWithoutPassword :=
  {| pub_id := User.id user;
     pub_username := User.username user;
     pub_fullName := User.fullName user;
     pub_age := User.age user;
     pub_profileImage := User.profileImage user;
     pub_weight := User.weight user;
     pub_height := User.height user |}.

Inductive UserStatsResponse : Type :=
| UserStats_sendStatus401
| UserStats_status400 (error : StatsError)
| UserStats_status200 (userWithoutPassword : UserWithoutPassword)
| UserStats_status500.

Definition putApiUserStats (auth : option Z) (body : StatsBody)
    (storage : UserStore) : UserStatsResponse * UserStore :=
  match auth with
  | None => (UserStats_sendStatus401, storage)
  | Some userId =>
      let weight := b_weight body in
      let height := b_height body in
      let fullName := b_fullName body in
      let age := b_age body in
      if negb (truthy weight) || negb (truthy height)
         || negb (typeofNumber weight) || negb (typeofNumber height)
         || (asNumber weight <? 30000) || (asNumber weight >? 300000)
         || (asNumber height <? 100) || (asNumber height >? 250)
      then (UserStats_status400 invalidWeightHeight, storage)
      else if negb (isUndefined fullName)
              && (negb (truthy fullName) || negb (typeofString fullName))
      then (UserStats_status400 invalidFullName, storage)
      else if negb (isUndefined age)
              && (negb (typeofNumber age)
                  || (asNumber age <? 12) || (asNumber age >? 100))
      then (UserStats_status400 invalidAge, storage)
      else
        match updateUserStats userId (asNumber weight) (asNumber height)
                (match fullName with VString s => Some s | _ => None end)
                (match age with VNumber n => Some n | _ => None end)
                storage with
        | inr (updatedUser, storage') =>
            (UserStats_status200 (withoutPassword updatedUser), storage')
        | inl _ => (UserStats_status500, storage)
        end
  end.

(** The requests the handler takes for valid, in words: a weight that is
    a number from 30000 to 300000, a height that is a number from 100 to
    250, a full name that is absent or a string that is not empty, and an
    age that is absent or a number from 12 to 100. *)
Definition validWeight (v : JsValue) : Prop :=
  exists w, v = VNumber w /\ 30000 <= w <= 300000.

Definition validHeight (v : JsValue) : Prop :=
  exists h, v = VNumber h /\ 100 <= h <= 250.

Definition validFullName (v : JsValue) : Prop :=
  v = VUndefined \/ exists s, v = VString s /\ s <> EmptyString.

Definition validAge (v : JsValue) : Prop :=
  v = VUndefined \/ exists a, v = VNumber a /\ 12 <= a <= 100.

Definition validStatsBody (body : StatsBody) : Prop :=
  validWeight (b_weight body) /\ validHeight (b_height body)
  /\ validFullName (b_fullName body) /\ validAge (b_age body).

(** ** [shared/schema.ts]: [getBMIClassification]

    Every finite double is a rational, and the thresholds are doubles. *)
Definition getBMIClassification (bmi : Q) : string :=
  if Qlt_le_dec bmi (37 # 2) then "Abaixo do peso"%string
  else if Qlt_le_dec bmi 25 then "Peso normal"%string
  else if Qlt_le_dec bmi 30 then "Sobrepeso"%string
  else if Qlt_le_dec bmi 35 then "Obesidade Grau I"%string
  else if Qlt_le_dec bmi 40 then "Obesidade Grau II"%string
  else "Obesidade Grau III"%string.

(** ** Facts about [JsMap] *)

Lemma JsMap_get_set_same {V : Type} (k : Z) (v : V) (m : JsMap.t V) :
  JsMap.get k (JsMap.set k v m) = Some v.
Proof.
  induction m as [|[k' v'] m IH]; simpl.
  - now rewrite Z.eqb_refl.
  - destruct (k' =? k) eqn:E; simpl.
    + now rewrite Z.eqb_refl.
    + now rewrite E.
Qed.

Lemma JsMap_get_set_other {V : Type} (k k0 : Z) (v : V) (m : JsMap.t V) :
  k0 <> k -> JsMap.get k0 (JsMap.set k v m) = JsMap.get k0 m.
Proof.
  intros Hne.
  induction m as [|[k' v'] m IH]; simpl.
  - destruct (k =? k0) eqn:E; [apply Z.eqb_eq in E; congruence | reflexivity].
  - destruct (k' =? k) eqn:E; simpl.
    + apply Z.eqb_eq in E. subst k'.
      destruct (k =? k0) eqn:E0; [apply Z.eqb_eq in E0; congruence | reflexivity].
    + now rewrite IH.
Qed.

Lemma JsMap_get_absent {V : Type} (k : Z) (m : JsMap.t V) :
  ~ In k (JsMap.keys m) -> JsMap.get k m = None.
Proof.
  induction m as [|[k' v'] m IH]; simpl; intros Hnin.
  - reflexivity.
  - destruct (k' =? k) eqn:E.
    + apply Z.eqb_eq in E. tauto.
    + apply IH. tauto.
Qed.

Lemma JsMap_set_fresh {V : Type} (k : Z) (v : V) (m : JsMap.t V) :
  ~ In k (JsMap.keys m) -> JsMap.set k v m = m ++ [(k, v)].
Proof.
  induction m as [|[k' v'] m IH]; simpl; intros Hnin.
  - reflexivity.
  - destruct (k' =? k) eqn:E.
    + apply Z.eqb_eq in E. tauto.
    + rewrite IH by tauto. reflexivity.
Qed.

(** ** Facts about [Array_sort] *)

Section ArraySortFacts.

Context {A : Type}.
Variable compareFn : A -> A -> Z.

Lemma sort_insert_perm (x : A) (l : list A) :
  Permutation (sort_insert compareFn x l) (x :: l).
Proof.
  induction l as [|y l IH]; simpl.
  - apply Permutation_refl.
  - destruct (compareFn x y <=? 0).
    + apply Permutation_refl.
    + eapply perm_trans; [apply perm_skip, IH | apply perm_swap].
Qed.

Lemma Array_sort_perm (l : list A) : Permutation (Array_sort compareFn l) l.
Proof.
  induction l as [|x l IH]; simpl.
  - constructor.
  - eapply perm_trans; [apply sort_insert_perm | now apply perm_skip].
Qed.

(** The order the comparator stands for. *)
Variable before : A -> A -> Prop.
Hypothesis before_trans : forall a b c, before a b -> before b c -> before a c.
Hypothesis compare_le : forall a b, compareFn a b <= 0 -> before a b.
Hypothesis compare_gt : forall a b, 0 < compareFn a b -> before b a.

Lemma sort_insert_sorted (x : A) (l : list A) :
  StronglySorted before l -> StronglySorted before (sort_insert compareFn x l).
Proof.
  induction 1 as [|y l Hl IH Hy]; simpl.
  - repeat constructor.
  - destruct (compareFn x y <=? 0) eqn:E.
    + apply Z.leb_le in E. constructor.
      * now constructor.
      * constructor; [now apply compare_le|].
        eapply Forall_impl; [|exact Hy].
        intros z Hz. eapply before_trans; [apply compare_le; exact E | exact Hz].
    + apply Z.leb_gt in E. constructor; [exact IH|].
      eapply Permutation_Forall; [apply Permutation_sym, sort_insert_perm|].
      constructor; [now apply compare_gt | exact Hy].
Qed.

Lemma Array_sort_sorted (l : list A) :
  StronglySorted before (Array_sort compareFn l).
Proof.
  induction l as [|x l IH]; simpl.
  - constructor.
  - now apply sort_insert_sorted.
Qed.

(** Stability: elements that compare equal keep the order of the input.
    [p] selects one class of such elements. *)
Lemma sort_insert_stable (p : A -> bool) (x : A) (l : list A) :
  (forall a b, p a = true -> p b = true -> compareFn a b = 0) ->
  filter p (sort_insert compareFn x l) = filter p (x :: l).
Proof.
  intros Hp. induction l as [|y l IH]; simpl.
  - reflexivity.
  - destruct (compareFn x y <=? 0) eqn:E; [reflexivity|].
    apply Z.leb_gt in E. simpl. rewrite IH. simpl.
    destruct (p x) eqn:Hx, (p y) eqn:Hy; try reflexivity.
    specialize (Hp x y Hx Hy). lia.
Qed.

Lemma Array_sort_stable (p : A -> bool) (l : list A) :
  (forall a b, p a = true -> p b = true -> compareFn a b = 0) ->
  filter p (Array_sort compareFn l) = filter p l.
Proof.
  intros Hp. induction l as [|x l IH]; simpl.
  - reflexivity.
  - rewrite sort_insert_stable by exact Hp. simpl. now rewrite IH.
Qed.

End ArraySortFacts.

(** ** Facts about [getWorkoutLogs] *)

Lemma filter_twice {A : Type} (p q : A -> bool) (l : list A) :
  filter q (filter p l) = filter (fun x => p x && q x) l.
Proof.
  induction l as [|x l IH]; simpl; [reflexivity|].
  destruct (p x); simpl; [destruct (q x)|]; now rewrite IH.
Qed.


(** The three successive filters of the method select what [selected]
    selects. *)
Lemma getWorkoutLogs_unsorted (this : MemStorage) (uid : Z)
    (startDate endDate : option Date) :
  filterIf endDate (fun d log => date log <=? d)
    (filterIf startDate (fun d log => date log >=? d)
       (filter (fun log => userId log =? uid)
               (JsMap.values (workoutLogs this))))
  = inWindow this uid startDate endDate.
Proof.
  unfold inWindow, filterIf, selected.
  destruct startDate as [sd|], endDate as [ed|];
    rewrite ?filter_twice; apply filter_ext; intros log;
    rewrite ?Z.geb_leb, ?andb_true_r, ?andb_assoc; reflexivity.
Qed.

Lemma getWorkoutLogs_perm (this : MemStorage) (uid : Z)
    (startDate endDate : option Date) :
  Permutation (getWorkoutLogs this uid startDate endDate)
              (inWindow this uid startDate endDate).
Proof.
  unfold getWorkoutLogs. rewrite getWorkoutLogs_unsorted.
  apply Array_sort_perm.
Qed.

Lemma getWorkoutLogs_sorted (this : MemStorage) (uid : Z)
    (startDate endDate : option Date) :
  StronglySorted newerOrSame (getWorkoutLogs this uid startDate endDate).
Proof.
  unfold getWorkoutLogs.
  apply Array_sort_sorted; unfold newerOrSame, byDateDesc; intros; lia.
Qed.

(** Logs of one date are listed in the order of the store. *)
Lemma getWorkoutLogs_stable (this : MemStorage) (uid : Z)
    (startDate endDate : option Date) (d : Date) :
  filter (fun log => date log =? d)
         (getWorkoutLogs this uid startDate endDate)
  = filter (fun log => date log =? d)
           (inWindow this uid startDate endDate).
Proof.
  unfold getWorkoutLogs. rewrite getWorkoutLogs_unsorted.
  apply Array_sort_stable. intros a b Ha Hb.
  apply Z.eqb_eq in Ha. apply Z.eqb_eq in Hb. unfold byDateDesc. lia.
Qed.


Lemma getWorkoutLogs_nil (this : MemStorage) (uid : Z)
    (startDate endDate : option Date) :
  getWorkoutLogs this uid startDate endDate = []
  <-> inWindow this uid startDate endDate = [].
Proof.
  split; intros H.
  - apply Permutation_nil. rewrite <- H. apply getWorkoutLogs_perm.
  - apply Permutation_nil. rewrite <- H. apply Permutation_sym, getWorkoutLogs_perm.
Qed.

Lemma selected_spec (uid : Z) (startDate endDate : option Date)
    (log : WorkoutLog) :
  selected uid startDate endDate log = true
  <-> userId log = uid
      /\ (forall d, startDate = Some d -> d <= date log)
      /\ (forall d, endDate = Some d -> date log <= d).
Proof.
  unfold selected. rewrite !andb_true_iff, Z.eqb_eq.
  destruct startDate as [sd|], endDate as [ed|]; rewrite ?Z.leb_le;
    (split; [intros ((Hu & Hs) & He) | intros (Hu & Hs & He)]);
    repeat split; trivial;
    try (intros d Hd; inversion Hd; subst; assumption);
    try (apply Hs; reflexivity); try (apply He; reflexivity).
Qed.

(** ** Facts about the sums of [getWorkoutStats] *)

Lemma reduce_sum {A : Type} (f : A -> Z) (l : list A) (init : Z) :
  fold_left (fun sum x => sum + f x) l init = init + sumZ (map f l).
Proof.
  revert init. induction l as [|x l IH]; intros init; simpl.
  - lia.
  - rewrite IH. lia.
Qed.

Lemma sumZ_perm (l l' : list Z) : Permutation l l' -> sumZ l = sumZ l'.
Proof.
  induction 1; simpl; lia.
Qed.

Lemma reduce_sum_window {A : Type} (f : A -> Z) (l l' : list A) :
  Permutation l l' ->
  fold_left (fun sum x => sum + f x) l 0 = sumZ (map f l').
Proof.
  intros H. rewrite reduce_sum. simpl.
  apply sumZ_perm, Permutation_map, H.
Qed.

Lemma filter_none {A : Type} (l : list A) : filter (fun _ => false) l = [].
Proof. induction l as [|x l IH]; simpl; congruence. Qed.

Lemma getWorkoutLogsBetween_valid (this : MemStorage) (uid : Z)
    (start endDate : Date) :
  getWorkoutLogsBetween this uid (Some start) endDate
  = getWorkoutLogs this uid (Some start) (Some endDate).
Proof. reflexivity. Qed.

Lemma getWorkoutLogsBetween_invalid (this : MemStorage) (uid : Z)
    (endDate : Date) :
  getWorkoutLogsBetween this uid None endDate = [].
Proof.
  unfold getWorkoutLogsBetween. rewrite filter_none. reflexivity.
Qed.

(** The result of [getWorkoutStats] when the listed logs are not empty. *)
Lemma getWorkoutStats_nonempty (daysBefore : Date -> Z -> option Date)
    (this : MemStorage) (uid : Z) (days_arg : option Z) (now1 now2 : Date)
    (start : Date) :
  let days := orDefault days_arg 30 in
  let logs := getWorkoutLogs this uid (Some start) (Some now1) in
  daysBefore now2 days = Some start ->
  logs <> [] ->
  getWorkoutStats daysBefore this uid days_arg now1 now2 =
  {| totalWorkouts := Z.of_nat (length logs);
     totalWaterIntake := fold_left (fun sum log => sum + waterIntake log) logs 0;
     totalDuration := fold_left (fun sum log => sum + duration log) logs 0;
     averageWaterPerWorkout :=
       Qdiv (inject_Z (fold_left (fun sum log => sum + waterIntake log) logs 0))
            (inject_Z (Z.of_nat (length logs)));
     completionPercentage :=
       if expectedWorkoutsOf days >? 0
       then Qmin 100 ((inject_Z (Z.of_nat (length logs))
                       / inject_Z (expectedWorkoutsOf days)) * 100)%Q
       else 0%Q;
     lastWorkoutDate := option_map date (hd_error logs) |}.
Proof.
  intros days logs Hstart Hne. unfold getWorkoutStats. fold days.
  rewrite Hstart, getWorkoutLogsBetween_valid. fold logs.
  destruct logs as [|log0 logs'] eqn:E; [congruence|].
  replace (Z.of_nat (length (log0 :: logs')) =? 0) with false
    by (symmetry; apply Z.eqb_neq; simpl length; lia).
  replace (Z.of_nat (length (log0 :: logs')) >? 0) with true
    by (symmetry; apply Z.gtb_lt; simpl length; lia).
  reflexivity.
Qed.

Lemma getWorkoutStats_listing_empty (daysBefore : Date -> Z -> option Date)
    (this : MemStorage) (uid : Z) (days_arg : option Z) (now1 now2 : Date) :
  getWorkoutLogsBetween this uid (daysBefore now2 (orDefault days_arg 30))
                        now1 = [] ->
  getWorkoutStats daysBefore this uid days_arg now1 now2 = zeroStats.
Proof.
  intros H. unfold getWorkoutStats. rewrite H. reflexivity.
Qed.

Lemma getWorkoutStats_empty (daysBefore : Date -> Z -> option Date)
    (this : MemStorage) (uid : Z) (days_arg : option Z) (now1 now2 : Date)
    (start : Date) :
  daysBefore now2 (orDefault days_arg 30) = Some start ->
  getWorkoutLogs this uid (Some start) (Some now1) = [] ->
  getWorkoutStats daysBefore this uid days_arg now1 now2 = zeroStats.
Proof.
  intros Hstart H. apply getWorkoutStats_listing_empty.
  now rewrite Hstart, getWorkoutLogsBetween_valid.
Qed.

(** With a start that is the invalid date the statistics are the zero
    record. *)
Lemma getWorkoutStats_invalid (daysBefore : Date -> Z -> option Date)
    (this : MemStorage) (uid : Z) (days_arg : option Z) (now1 now2 : Date) :
  daysBefore now2 (orDefault days_arg 30) = None ->
  getWorkoutStats daysBefore this uid days_arg now1 now2 = zeroStats.
Proof.
  intros Hstart. apply getWorkoutStats_listing_empty.
  rewrite Hstart. apply getWorkoutLogsBetween_invalid.
Qed.

Lemma getWorkoutStats_of_logs (daysBefore : Date -> Z -> option Date)
    (this this' : MemStorage) (uid : Z) (days_arg : option Z)
    (now1 now2 now1' now2' : Date) :
  getWorkoutLogsBetween this uid (daysBefore now2 (orDefault days_arg 30))
                        now1
  = getWorkoutLogsBetween this' uid
      (daysBefore now2' (orDefault days_arg 30)) now1' ->
  getWorkoutStats daysBefore this uid days_arg now1 now2
  = getWorkoutStats daysBefore this' uid days_arg now1' now2'.
Proof.
  intros H. unfold getWorkoutStats. rewrite H. reflexivity.
Qed.

Lemma sorted_head_max (l : list WorkoutLog) :
  StronglySorted newerOrSame l ->
  match l with
  | [] => True
  | log0 :: _ => forall log, In log l -> date log <= date log0
  end.
Proof.
  intros H. destruct l as [|log0 l']; [exact I|].
  inversion H as [|? ? _ Hall]; subst.
  intros log [<- | Hin]; [lia|].
  rewrite Forall_forall in Hall. exact (Hall log Hin).
Qed.

(** ** The properties of the specification: listing and statistics *)







(** C3.  The list returned by [getWorkoutLogs] is sorted by date, most
    recent first, whatever bounds are given or omitted.  Hence, when the
    window is not empty, the [lastWorkoutDate] of [getWorkoutStats], which
    is the date of the first listed log, is the date of an in-window log
    and no in-window log has a later date.  (A window whose start is not a
    date lists nothing, and [lastWorkoutDate] is then null.) *)
Theorem getWorkoutLogs_sorted_desc (this : MemStorage) (uid : Z) :
  (forall startDate endDate,
      StronglySorted (fun a b => date b <= date a)
                     (getWorkoutLogs this uid startDate endDate))
  /\ (forall daysBefore days_arg now1 now2,
         let days := orDefault days_arg 30 in
         let stats :=
           getWorkoutStats daysBefore this uid days_arg now1 now2 in
         (forall start,
             daysBefore now2 days = Some start ->
             let window := inWindow this uid (Some start) (Some now1) in
             window <> [] ->
             lastWorkoutDate stats
             = option_map date
                 (hd_error (getWorkoutLogs this uid (Some start) (Some now1)))
             /\ exists latest,
                 In latest window
                 /\ lastWorkoutDate stats = Some (date latest)
                 /\ forall log, In log window -> date log <= date latest)
         /\ (daysBefore now2 days = None -> lastWorkoutDate stats = None)).
Proof.
  split.
  - intros startDate endDate. apply getWorkoutLogs_sorted.
  - intros daysBefore days_arg now1 now2 days stats. split.
    + intros start Hstart window Hne.
      pose proof (getWorkoutLogs_perm this uid (Some start) (Some now1))
        as Hperm.
      pose proof (getWorkoutLogs_sorted this uid (Some start) (Some now1))
        as Hsorted.
      apply sorted_head_max in Hsorted.
      fold window in Hperm.
      assert (Hlogs : getWorkoutLogs this uid (Some start) (Some now1) <> []).
      { intros E. apply Hne. unfold window. now apply getWorkoutLogs_nil. }
      assert (Hstats := getWorkoutStats_nonempty daysBefore this uid days_arg
                          now1 now2 start Hstart Hlogs).
      fold stats in Hstats.
      destruct (getWorkoutLogs this uid (Some start) (Some now1))
        as [|log0 rest] eqn:E; [congruence|].
      split; [rewrite Hstats; reflexivity|].
      exists log0. split; [|split].
      * eapply Permutation_in; [exact Hperm | now left].
      * rewrite Hstats. reflexivity.
      * intros log Hin. apply Hsorted.
        eapply Permutation_in; [apply Permutation_sym; exact Hperm | exact Hin].
    + intros Hstart. unfold stats.
      rewrite (getWorkoutStats_invalid daysBefore this uid days_arg
                 now1 now2 Hstart).
      reflexivity.
Qed.

Lemma getWorkoutLogs_sorted_desc_witness :
  utcDaysBefore (6 * day) 30 = Some (6 * day - 30 * day)
  /\ inWindow scenarioA 1 (Some (6 * day - 30 * day)) (Some (6 * day)) <> []
  /\ map date (getWorkoutLogs scenarioA 1 None None)
     = [5 * day; 4 * day; 3 * day; 2 * day; 1 * day]
  /\ exists latest,
      lastWorkoutDate (getWorkoutStats utcDaysBefore scenarioA 1 (Some 30)
                                       (6 * day) (6 * day))
      = Some (date latest)
      /\ date latest = 5 * day.
Proof.
  assert (Hstart : utcDaysBefore (6 * day) 30 = Some (6 * day - 30 * day))
    by reflexivity.
  assert (Hne : inWindow scenarioA 1 (Some (6 * day - 30 * day))
                  (Some (6 * day)) <> []) by (vm_compute; discriminate).
  destruct (getWorkoutLogs_sorted_desc scenarioA 1) as (_ & Hlast).
  destruct (Hlast utcDaysBefore (Some 30) (6 * day) (6 * day)) as (Hvalid & _).
  destruct (Hvalid _ Hstart Hne) as (Hhd & latest & _ & Hdate & _).
  refine (conj Hstart (conj Hne (conj eq_refl _))).
  exists latest. split; [exact Hdate|].
  assert (Hd : Some (date latest) = Some (5 * day))
    by (rewrite <- Hdate; reflexivity).
  injection Hd as Hd. exact Hd.
Defined.

(** ** Facts about [createWorkoutLog] and the reachable stores *)

Lemma storeInv_counter_fresh (this : MemStorage) :
  storeInv this -> ~ In (currentWorkoutLogId this)
                        (JsMap.keys (workoutLogs this)).
Proof.
  intros [_ Hall] Hin. unfold JsMap.keys in Hin.
  apply in_map_iff in Hin. destruct Hin as (kv & Hk & Hin).
  rewrite Forall_forall in Hall. specialize (Hall kv Hin). lia.
Qed.

Lemma createWorkoutLog_appends (log : InsertWorkoutLog) (now : Date)
    (this : MemStorage) :
  storeInv this ->
  workoutLogs (snd (createWorkoutLog log now this))
  = workoutLogs this
    ++ [(currentWorkoutLogId this, fst (createWorkoutLog log now this))].
Proof.
  intros Hinv. unfold createWorkoutLog. simpl.
  apply JsMap_set_fresh, storeInv_counter_fresh, Hinv.
Qed.

Lemma createWorkoutLog_inv (log : InsertWorkoutLog) (now : Date)
    (this : MemStorage) :
  storeInv this -> storeInv (snd (createWorkoutLog log now this)).
Proof.
  intros Hinv. pose proof (storeInv_counter_fresh this Hinv) as Hfresh.
  unfold storeInv. rewrite (createWorkoutLog_appends log now this Hinv).
  destruct Hinv as [Hnd Hall]. split.
  - unfold JsMap.keys in *. rewrite map_app. simpl.
    eapply Permutation_NoDup; [apply Permutation_cons_append|].
    constructor; assumption.
  - apply Forall_app. split.
    + eapply Forall_impl; [|exact Hall].
      intros kv [Hlt Hid]. simpl. split; [lia | exact Hid].
    + constructor; [|constructor]. simpl. split; [lia | reflexivity].
Qed.

Lemma reachable_inv (this : MemStorage) : reachable this -> storeInv this.
Proof.
  induction 1 as [|this log now _ IH].
  - split; [constructor | constructor].
  - now apply createWorkoutLog_inv.
Qed.

Lemma run_cons (log : InsertWorkoutLog) (now : Date)
    (calls : list (InsertWorkoutLog * Date)) (this : MemStorage) :
  run ((log, now) :: calls) this
  = (fst (createWorkoutLog log now this)
       :: fst (run calls (snd (createWorkoutLog log now this))),
     snd (run calls (snd (createWorkoutLog log now this)))).
Proof.
  cbn [run]. destruct (createWorkoutLog log now this) as [r this1].
  cbn [fst snd]. destruct (run calls this1) as [rs this2]. reflexivity.
Qed.

Lemma run_reachable (calls : list (InsertWorkoutLog * Date))
    (this : MemStorage) :
  reachable this -> reachable (snd (run calls this)).
Proof.
  revert this. induction calls as [|[log now] calls IH]; intros this Hr.
  - exact Hr.
  - rewrite run_cons. cbn [snd]. apply IH. now apply reachable_create.
Qed.

Lemma storeInv_ids (this : MemStorage) :
  storeInv this ->
  map id (JsMap.values (workoutLogs this)) = JsMap.keys (workoutLogs this).
Proof.
  intros [_ Hall]. unfold JsMap.values, JsMap.keys.
  induction Hall as [|kv m [_ Hid] _ IH]; simpl; [reflexivity|].
  now rewrite Hid, IH.
Qed.

Lemma distinct_ids_filter (keep : WorkoutLog -> bool)
    (logs : list WorkoutLog) :
  NoDup (map id logs) -> NoDup (map id (filter keep logs)).
Proof.
  intros Hnd. induction logs as [|x rest IH]; simpl; [constructor|].
  simpl in Hnd. apply NoDup_cons_iff in Hnd. destruct Hnd as [Hnin Hnd].
  destruct (keep x); simpl; [|now apply IH].
  apply NoDup_cons; [|now apply IH].
  intros Hin. apply Hnin. apply in_map_iff in Hin.
  destruct Hin as (y & Hy & Hin). apply in_map_iff. exists y.
  split; [exact Hy|]. apply filter_In in Hin. tauto.
Qed.

(** The identifiers handed out by a history are consecutive from the
    counter: each is at least the counter the history started from, below
    the counter it ends with, and below those handed out after it. *)
Lemma run_ids (calls : list (InsertWorkoutLog * Date)) (this : MemStorage) :
  currentWorkoutLogId this <= currentWorkoutLogId (snd (run calls this))
  /\ Forall (fun r => currentWorkoutLogId this <= id r
                      < currentWorkoutLogId (snd (run calls this)))
            (fst (run calls this))
  /\ StronglySorted (fun a b => id a < id b) (fst (run calls this)).
Proof.
  revert this. induction calls as [|[log now] calls IH]; intros this.
  - simpl. split; [lia|]. split; constructor.
  - rewrite run_cons. cbn [fst snd].
    specialize (IH (snd (createWorkoutLog log now this))).
    assert (Hr : id (fst (createWorkoutLog log now this))
                 = currentWorkoutLogId this) by reflexivity.
    assert (Hc : currentWorkoutLogId (snd (createWorkoutLog log now this))
                 = currentWorkoutLogId this + 1) by reflexivity.
    destruct IH as (Hle & Hall & Hsorted).
    split; [lia|]. split.
    + constructor; [lia|].
      eapply Forall_impl; [|exact Hall]. intros a Ha. cbv beta in Ha. lia.
    + constructor; [exact Hsorted|].
      eapply Forall_impl; [|exact Hall]. intros a Ha. cbv beta in Ha. lia.
Qed.

(** C4.  [getWorkoutLogs(userId, startDate, endDate)] returns the stored
    logs of the user whose date lies between the bounds, each bound
    inclusive and ignored when omitted: the result is a rearrangement of
    the selected entries of the store (each entry once, nothing else), a
    log is listed exactly when it is stored and meets the condition, the
    result is the empty list when nothing matches, and in a store built by
    [createWorkoutLog] no identifier is listed twice. *)
Theorem getWorkoutLogs_exact (this : MemStorage) (uid : Z)
    (startDate endDate : option Date) :
  let stored := JsMap.values (workoutLogs this) in
  let result := getWorkoutLogs this uid startDate endDate in
  Permutation result (filter (selected uid startDate endDate) stored)
  /\ (forall log,
         In log result
         <-> In log stored
             /\ userId log = uid
             /\ (forall d, startDate = Some d -> d <= date log)
             /\ (forall d, endDate = Some d -> date log <= d))
  /\ ((forall log, In log stored -> selected uid startDate endDate log = false)
      -> result = [])
  /\ (reachable this -> NoDup (map id result)).
Proof.
  intros stored result.
  pose proof (getWorkoutLogs_perm this uid startDate endDate) as Hperm.
  fold result in Hperm. unfold inWindow in Hperm. fold stored in Hperm.
  split; [exact Hperm|]. split; [|split].
  - intros log. rewrite <- selected_spec, <- filter_In. split; intros Hin.
    + eapply Permutation_in; [exact Hperm | exact Hin].
    + eapply Permutation_in; [apply Permutation_sym; exact Hperm | exact Hin].
  - intros Hnone. apply Permutation_nil.
    replace [] with (filter (selected uid startDate endDate) stored).
    + apply Permutation_sym, Hperm.
    + clear Hperm. induction stored as [|x l IH]; [reflexivity|].
      simpl. rewrite (Hnone x (or_introl eq_refl)).
      apply IH. intros log Hin. apply Hnone. now right.
  - intros Hreach. apply reachable_inv in Hreach.
    eapply Permutation_NoDup;
      [apply Permutation_sym, Permutation_map, Hperm|].
    apply distinct_ids_filter. unfold stored. rewrite storeInv_ids by assumption.
    apply Hreach.
Qed.

Lemma getWorkoutLogs_exact_witness :
  reachable scenarioA
  /\ map id (getWorkoutLogs scenarioA 1 (Some (2 * day)) (Some (4 * day)))
     = [5; 4; 2]
  /\ (forall log, In log (JsMap.values (workoutLogs scenarioA)) ->
                  selected 3 None None log = false)
  /\ getWorkoutLogs scenarioA 3 None None = []
  /\ NoDup (map id (getWorkoutLogs scenarioA 1 None None)).
Proof.
  assert (Hreach : reachable scenarioA)
    by (apply run_reachable, reachable_new).
  assert (Hnone : forall log, In log (JsMap.values (workoutLogs scenarioA)) ->
                              selected 3 None None log = false).
  { intros log Hin. vm_compute in Hin.
    repeat (destruct Hin as [<- | Hin]; [reflexivity|]). contradiction. }
  destruct (getWorkoutLogs_exact scenarioA 3 None None) as (_ & _ & Hnil & _).
  destruct (getWorkoutLogs_exact scenarioA 1 None None) as (_ & _ & _ & Hnd).
  exact (conj Hreach (conj eq_refl (conj Hnone
          (conj (Hnil Hnone) (Hnd Hreach))))).
Defined.

(** No log is listed between two dates when no stored log of the user
    lies between them. *)
Lemma getWorkoutLogs_none_between (this : MemStorage) (uid : Z)
    (start endDate : Date) :
  (forall log, In log (JsMap.values (workoutLogs this)) ->
               userId log = uid ->
               ~ (start <= date log <= endDate)) ->
  getWorkoutLogs this uid (Some start) (Some endDate) = [].
Proof.
  intros Hnone. apply getWorkoutLogs_nil. unfold inWindow.
  induction (JsMap.values (workoutLogs this)) as [|x l IH]; [reflexivity|].
  simpl.
  destruct (selected uid (Some start) (Some endDate) x) eqn:E.
  - exfalso. apply selected_spec in E. destruct E as (Hu & Hs & He).
    apply (Hnone x (or_introl eq_refl) Hu).
    split; [apply Hs | apply He]; reflexivity.
  - apply IH. intros log Hin. apply Hnone. now right.
Qed.

(** C5.  When no stored log of the user has its date in the window,
    [getWorkoutStats] returns zero for the five numbers and no
    [lastWorkoutDate].  (A window whose start is not a date holds no
    log.) *)
Theorem getWorkoutStats_no_logs (daysBefore : Date -> Z -> option Date)
    (this : MemStorage) (uid : Z) (days : Z) (now1 now2 : Date) :
  0 < days ->
  (forall log start,
      In log (JsMap.values (workoutLogs this)) ->
      userId log = uid ->
      daysBefore now2 days = Some start ->
      ~ (start <= date log <= now1)) ->
  getWorkoutStats daysBefore this uid (Some days) now1 now2
  = {| totalWorkouts := 0;
       totalWaterIntake := 0;
       totalDuration := 0;
       averageWaterPerWorkout := 0;
       completionPercentage := 0;
       lastWorkoutDate := None |}.
Proof.
  intros _ Hnone. destruct (daysBefore now2 days) as [start|] eqn:Hstart.
  - apply (getWorkoutStats_empty daysBefore this uid (Some days) now1 now2
             start Hstart).
    apply getWorkoutLogs_none_between.
    intros log Hin Hu. now apply (Hnone log start).
  - now apply getWorkoutStats_invalid.
Qed.

Lemma getWorkoutStats_no_logs_witness :
  0 < 7
  /\ utcDaysBefore (40 * day) 7 = Some (33 * day)
  /\ (forall log start,
         In log (JsMap.values (workoutLogs scenarioA)) ->
         userId log = 1 ->
         utcDaysBefore (40 * day) 7 = Some start ->
         ~ (start <= date log <= 40 * day))
  /\ getWorkoutStats utcDaysBefore scenarioA 1 (Some 7) (40 * day) (40 * day)
     = zeroStats.
Proof.
  assert (Hpos : 0 < 7) by lia.
  assert (Hstart : utcDaysBefore (40 * day) 7 = Some (33 * day))
    by reflexivity.
  assert (Hnone : forall log start,
             In log (JsMap.values (workoutLogs scenarioA)) ->
             userId log = 1 ->
             utcDaysBefore (40 * day) 7 = Some start ->
             ~ (start <= date log <= 40 * day)).
  { intros log start Hin _ Hs. rewrite Hstart in Hs.
    injection Hs as <-. vm_compute in Hin.
    repeat (destruct Hin as [<- | Hin];
            [vm_compute; intros [H _]; apply H; reflexivity|]).
    contradiction. }
  exact (conj Hpos (conj Hstart (conj Hnone
          (getWorkoutStats_no_logs utcDaysBefore scenarioA 1 7
             (40 * day) (40 * day) Hpos Hnone)))).
Defined.

(** C9, as stated, fails: the window of [getWorkoutStats] ends at the
    current time, which each call reads anew.  On a store holding one log
    dated 0, a call made exactly 30 days later counts the log and a call
    made one millisecond after that, with no write in between, does not. *)
Lemma getWorkoutStats_window_moves :
  getWorkoutStats utcDaysBefore oneLog 1 (Some 30) (30 * day) (30 * day)
  <> getWorkoutStats utcDaysBefore oneLog 1 (Some 30)
                     (30 * day + 1) (30 * day + 1)
  /\ totalWorkouts (getWorkoutStats utcDaysBefore oneLog 1 (Some 30)
                                    (30 * day) (30 * day)) = 1
  /\ totalWorkouts (getWorkoutStats utcDaysBefore oneLog 1 (Some 30)
                                    (30 * day + 1) (30 * day + 1)) = 0.
Proof.
  split; [|split; reflexivity].
  intros H. apply (f_equal totalWorkouts) in H. vm_compute in H.
  discriminate H.
Qed.

(** C9, amended.  Two calls of [getWorkoutStats] for the same user and
    window length on the same store (no write in between) return the same
    [WorkoutStats] whenever their windows hold the same stored logs of the
    user; in particular when both calls read the same time.  (A window
    whose start is not a date holds no log.) *)
Theorem getWorkoutStats_repeatable (daysBefore : Date -> Z -> option Date)
    (this : MemStorage) (uid : Z) (days_arg : option Z)
    (now1 now2 now1' now2' : Date) :
  let days := orDefault days_arg 30 in
  (forall log, In log (JsMap.values (workoutLogs this)) ->
               userId log = uid ->
               ((exists start, daysBefore now2 days = Some start
                               /\ start <= date log <= now1)
                <-> (exists start, daysBefore now2' days = Some start
                                   /\ start <= date log <= now1'))) ->
  getWorkoutStats daysBefore this uid days_arg now1 now2
  = getWorkoutStats daysBefore this uid days_arg now1' now2'.
Proof.
  intros days Hsame.
  destruct (daysBefore now2 days) as [s|] eqn:Hs,
           (daysBefore now2' days) as [s'|] eqn:Hs'.
  - apply getWorkoutStats_of_logs. fold days. rewrite Hs, Hs'.
    rewrite !getWorkoutLogsBetween_valid.
    unfold getWorkoutLogs. rewrite !getWorkoutLogs_unsorted.
    f_equal. unfold inWindow. apply filter_ext_in. intros log Hin.
    specialize (Hsame log Hin). unfold selected.
    destruct (userId log =? uid) eqn:Eu; [|reflexivity].
    apply Z.eqb_eq in Eu. specialize (Hsame Eu). simpl.
    assert (Hiff : s <= date log <= now1 <-> s' <= date log <= now1').
    { split; intros H.
      - destruct (proj1 Hsame (ex_intro _ s (conj eq_refl H)))
          as (x & Hx & Hin'). injection Hx as <-. exact Hin'.
      - destruct (proj2 Hsame (ex_intro _ s' (conj eq_refl H)))
          as (x & Hx & Hin'). injection Hx as <-. exact Hin'. }
    destruct (s <=? date log) eqn:E1,
             (date log <=? now1) eqn:E2,
             (s' <=? date log) eqn:E3,
             (date log <=? now1') eqn:E4; try reflexivity;
      rewrite ?Z.leb_le, ?Z.leb_gt in *; lia.
  - rewrite (getWorkoutStats_invalid daysBefore this uid days_arg
               now1' now2' Hs').
    apply (getWorkoutStats_empty daysBefore this uid days_arg now1 now2
             s Hs).
    apply getWorkoutLogs_none_between. intros log Hin Hu H.
    destruct (proj1 (Hsame log Hin Hu) (ex_intro _ s (conj eq_refl H)))
      as (x & Hx & _). discriminate Hx.
  - rewrite (getWorkoutStats_invalid daysBefore this uid days_arg
               now1 now2 Hs).
    symmetry.
    apply (getWorkoutStats_empty daysBefore this uid days_arg now1' now2'
             s' Hs').
    apply getWorkoutLogs_none_between. intros log Hin Hu H.
    destruct (proj2 (Hsame log Hin Hu) (ex_intro _ s' (conj eq_refl H)))
      as (x & Hx & _). discriminate Hx.
  - rewrite (getWorkoutStats_invalid daysBefore this uid days_arg
               now1 now2 Hs).
    rewrite (getWorkoutStats_invalid daysBefore this uid days_arg
               now1' now2' Hs').
    reflexivity.
Qed.

Lemma getWorkoutStats_repeatable_witness :
  (forall log, In log (JsMap.values (workoutLogs scenarioA)) ->
               userId log = 1 ->
               ((exists start, utcDaysBefore (6 * day) 30 = Some start
                               /\ start <= date log <= 6 * day)
                <-> (exists start, utcDaysBefore (7 * day) 30 = Some start
                                   /\ start <= date log <= 7 * day)))
  /\ getWorkoutStats utcDaysBefore scenarioA 1 (Some 30) (6 * day) (6 * day)
     = getWorkoutStats utcDaysBefore scenarioA 1 (Some 30) (7 * day) (7 * day).
Proof.
  assert (Hsame : forall log,
             In log (JsMap.values (workoutLogs scenarioA)) ->
             userId log = 1 ->
             ((exists start, utcDaysBefore (6 * day) 30 = Some start
                             /\ start <= date log <= 6 * day)
              <-> (exists start, utcDaysBefore (7 * day) 30 = Some start
                                 /\ start <= date log <= 7 * day))).
  { intros log Hin _. vm_compute in Hin.
    repeat (destruct Hin as [<- | Hin];
            [split; intros (x & Hx & _);
             [exists (7 * day - 30 * day) | exists (6 * day - 30 * day)];
             (split; [reflexivity | unfold day; simpl date; lia])|]).
    contradiction. }
  exact (conj Hsame
          (getWorkoutStats_repeatable utcDaysBefore scenarioA 1 (Some 30)
             (6 * day) (6 * day) (7 * day) (7 * day) Hsame)).
Defined.

(** ** The properties of the specification: creation *)

(** C6.  After any history of calls on a new storage, [createWorkoutLog]
    returns a record whose identifier is greater than every identifier
    returned before, so no two calls return the same one.  The record
    carries the caller's [userId] and every field the caller supplied; an
    omitted [date] is the current time, omitted [completedExercises],
    [waterIntake] and [duration] are 0, omitted [workoutId] and [notes]
    are null.  The record is stored under its identifier. *)
Theorem createWorkoutLog_record (calls : list (InsertWorkoutLog * Date))
    (log : InsertWorkoutLog) (now : Date) :
  let previous := fst (run calls MemStorage_new) in
  let this := snd (run calls MemStorage_new) in
  let r := fst (createWorkoutLog log now this) in
  let this' := snd (createWorkoutLog log now this) in
  Forall (fun p => id p < id r) previous
  /\ NoDup (map id (previous ++ [r]))
  /\ userId r = in_userId log
  /\ workoutId r = match in_workoutId log with Some w => w | None => None end
  /\ date r = match in_date log with Some d => d | None => now end
  /\ completedExercises r
     = match in_completedExercises log with Some n => n | None => 0 end
  /\ waterIntake r = match in_waterIntake log with Some n => n | None => 0 end
  /\ duration r = match in_duration log with Some n => n | None => 0 end
  /\ notes r = match in_notes log with Some n => n | None => None end
  /\ JsMap.get (id r) (workoutLogs this') = Some r
  /\ In r (JsMap.values (workoutLogs this')).
Proof.
  intros previous this r this'.
  destruct (run_ids calls MemStorage_new) as (_ & Hall & Hsorted).
  fold previous in Hall, Hsorted. fold this in Hall.
  assert (Hid : id r = currentWorkoutLogId this) by reflexivity.
  assert (Hlt : Forall (fun p => id p < id r) previous).
  { eapply Forall_impl; [|exact Hall]. intros a Ha. cbv beta in Ha. lia. }
  assert (Hget : JsMap.get (id r) (workoutLogs this') = Some r)
    by apply JsMap_get_set_same.
  assert (Hin : In r (JsMap.values (workoutLogs this'))).
  { assert (Hinv : storeInv this)
      by (apply reachable_inv, run_reachable, reachable_new).
    unfold this'. rewrite (createWorkoutLog_appends log now this Hinv).
    unfold JsMap.values. rewrite map_app. apply in_or_app. right. now left. }
  assert (Hnd : NoDup (map id (previous ++ [r]))).
  { rewrite map_app. simpl.
    eapply Permutation_NoDup; [apply Permutation_cons_append|].
    constructor.
    - intros Hmem. apply in_map_iff in Hmem. destruct Hmem as (p & Hp & Hpin).
      rewrite Forall_forall in Hlt. specialize (Hlt p Hpin). lia.
    - clear -Hsorted. induction Hsorted as [|a l _ IH Ha]; simpl; constructor.
      + intros Hmem. apply in_map_iff in Hmem.
        destruct Hmem as (p & Hp & Hpin).
        rewrite Forall_forall in Ha. specialize (Ha p Hpin). lia.
      + exact IH. }
  refine (conj Hlt (conj Hnd _)).
  repeat (split; [reflexivity|]).
  exact (conj Hget Hin).
Qed.

(** C10.  On a storage built by the program, [createWorkoutLog] stores the
    new record under an identifier that was not in use, adds that one
    entry (at the end of the map) and nothing else, and leaves every
    record stored before under its identifier, unchanged. *)
Theorem createWorkoutLog_frame (this : MemStorage) (log : InsertWorkoutLog)
    (now : Date) :
  reachable this ->
  let r := fst (createWorkoutLog log now this) in
  let this' := snd (createWorkoutLog log now this) in
  JsMap.get (id r) (workoutLogs this) = None
  /\ JsMap.get (id r) (workoutLogs this') = Some r
  /\ (forall k v, JsMap.get k (workoutLogs this) = Some v ->
                  JsMap.get k (workoutLogs this') = Some v)
  /\ (forall k, k <> id r ->
                JsMap.get k (workoutLogs this') = JsMap.get k (workoutLogs this))
  /\ workoutLogs this' = workoutLogs this ++ [(id r, r)]
  /\ JsMap.size (workoutLogs this') = JsMap.size (workoutLogs this) + 1.
Proof.
  intros Hreach r this'. apply reachable_inv in Hreach.
  pose proof (storeInv_counter_fresh this Hreach) as Hfresh.
  assert (Hid : id r = currentWorkoutLogId this) by reflexivity.
  assert (Hnone : JsMap.get (id r) (workoutLogs this) = None)
    by (rewrite Hid; now apply JsMap_get_absent).
  assert (Hother : forall k, k <> id r ->
            JsMap.get k (workoutLogs this') = JsMap.get k (workoutLogs this))
    by (intros k Hk; now apply JsMap_get_set_other).
  assert (Happ : workoutLogs this' = workoutLogs this ++ [(id r, r)])
    by (rewrite Hid; now apply createWorkoutLog_appends).
  split; [exact Hnone|]. split; [apply JsMap_get_set_same|].
  split; [|split; [exact Hother|split; [exact Happ|]]].
  - intros k v Hk. rewrite Hother; [exact Hk|].
    intros ->. rewrite Hnone in Hk. discriminate.
  - unfold JsMap.size. rewrite Happ, length_app. simpl. lia.
Qed.

Lemma createWorkoutLog_frame_witness :
  reachable scenarioA
  /\ JsMap.keys (workoutLogs scenarioA) = [1; 2; 3; 4; 5; 6]
  /\ id (fst (createWorkoutLog (session 2 (9 * day) 0 0) 0 scenarioA)) = 7
  /\ forall k v,
      JsMap.get k (workoutLogs scenarioA) = Some v ->
      JsMap.get k (workoutLogs
                     (snd (createWorkoutLog (session 2 (9 * day) 0 0) 0
                                            scenarioA)))
      = Some v.
Proof.
  assert (Hreach : reachable scenarioA)
    by (apply run_reachable, reachable_new).
  destruct (createWorkoutLog_frame scenarioA (session 2 (9 * day) 0 0) 0
              Hreach) as (_ & _ & Hkept & _).
  exact (conj Hreach (conj eq_refl (conj eq_refl Hkept))).
Defined.

(** ** Facts about [parseInt] *)

(** A property of a code unit below 256 that the tests on it decide is
    settled by going through the 256 of them. *)
Ltac each_char c :=
  destruct c as [[] [] [] [] [] [] [] []].

Lemma isDigit_not_space (c : ascii) :
  isDigit c = true -> isWhiteSpace c = false.
Proof.
  each_char c; intros H;
    first [reflexivity | discriminate H].
Qed.

Lemma isDigit_readSign (c : ascii) (s : string) :
  isDigit c = true -> readSign (String c s) = (1, String c s).
Proof.
  each_char c; intros H;
    first [reflexivity | discriminate H].
Qed.

Lemma isDigit_radixDigit (c : ascii) :
  isDigit c = true ->
  radixDigit 10 c = Some (Z.of_N (N_of_ascii c) - 48).
Proof.
  unfold isDigit, radixDigit, digitValue. intros H. rewrite H.
  apply andb_true_iff in H. destruct H as [H1 H2].
  apply Z.leb_le in H1. apply Z.leb_le in H2.
  replace (Z.of_N (N_of_ascii c) - 48 <? 10) with true; [reflexivity|].
  symmetry. apply Z.ltb_lt. lia.
Qed.

Lemma digitsValue_first (c : ascii) (s : string) (acc v : Z) :
  digitsValue (String c s) acc = Some v -> isDigit c = true.
Proof.
  simpl. destruct (isDigit c); [reflexivity | discriminate].
Qed.

Lemma digitsPrefix_all_digits (s : string) :
  forall (acc : option Z) (v : Z),
    digitsValue s (orDefault acc 0) = Some v ->
    s <> EmptyString \/ acc <> None ->
    digitsPrefix 10 s acc = Some v.
Proof.
  induction s as [|c s IH]; intros acc v Hv Hne.
  - simpl in *. destruct acc as [a|]; [exact Hv|].
    destruct Hne as [Hne | Hne]; congruence.
  - pose proof (digitsValue_first _ _ _ _ Hv) as Hc.
    simpl in Hv. rewrite Hc in Hv.
    simpl. rewrite (isDigit_radixDigit c Hc).
    apply IH; [exact Hv | right; discriminate].
Qed.

Lemma unsignedValue_readRadix (s : string) (v : Z) :
  unsignedValue s = Some v -> readRadix s = (10, s).
Proof.
  destruct s as [|c s]; [discriminate|].
  unfold unsignedValue. intros Hv.
  pose proof (digitsValue_first _ _ _ _ Hv) as Hc.
  simpl in Hv. rewrite Hc in Hv.
  destruct s as [|c' s'].
  - each_char c;
      first [reflexivity | discriminate Hc].
  - pose proof (digitsValue_first _ _ _ _ Hv) as Hc'.
    each_char c;
      try reflexivity; try discriminate Hc.
    each_char c';
      first [reflexivity | discriminate Hc'].
Qed.

Lemma unsignedValue_digitsPrefix (s : string) (v : Z) :
  unsignedValue s = Some v -> digitsPrefix 10 s None = Some v.
Proof.
  intros Hv. apply digitsPrefix_all_digits.
  - destruct s; [discriminate | exact Hv].
  - left. destruct s; [discriminate | discriminate].
Qed.

Lemma parseInt_steps (input : string) :
  parseInt input
  = match digitsPrefix
            (fst (readRadix (snd (readSign (trimStart input)))))
            (snd (readRadix (snd (readSign (trimStart input)))))
            None with
    | None => None
    | Some mathInt => Some (fst (readSign (trimStart input)) * mathInt)
    end.
Proof.
  unfold parseInt. destruct (readSign (trimStart input)) as [sign str].
  cbn [fst snd]. destruct (readRadix str) as [R str']. reflexivity.
Qed.

(** On a numeric parameter [parseInt] returns its value. *)
Lemma parseInt_decimal (s : string) (v : Z) :
  decimalValue s = Some v -> parseInt s = Some v.
Proof.
  unfold decimalValue. intros Hv. rewrite parseInt_steps.
  assert (Hun : forall s' u, unsignedValue s' = Some u ->
            digitsPrefix (fst (readRadix s')) (snd (readRadix s')) None
            = Some u).
  { intros s' u Hu. rewrite (unsignedValue_readRadix s' u Hu).
    exact (unsignedValue_digitsPrefix s' u Hu). }
  destruct s as [|c s0]; [discriminate|].
  destruct (ascii_dec c "-") as [-> | Hminus];
    [|destruct (ascii_dec c "+") as [-> | Hplus]].
  - destruct (unsignedValue s0) as [u|] eqn:Hu; [|discriminate].
    injection Hv as <-.
    change (trimStart (String "-" s0)) with (String "-"%char s0).
    change (readSign (String "-" s0)) with (-1, s0). cbn [fst snd].
    rewrite (Hun s0 u Hu). f_equal; lia.
  - change (trimStart (String "+" s0)) with (String "+"%char s0).
    change (readSign (String "+" s0)) with (1, s0). cbn [fst snd].
    rewrite (Hun s0 v Hv). f_equal; lia.
  - assert (Hv' : unsignedValue (String c s0) = Some v).
    { revert Hv. clear -Hminus Hplus.
      each_char c; try (intros H; exact H);
        congruence. }
    pose proof (digitsValue_first _ _ _ _ Hv') as Hc.
    simpl trimStart. rewrite (isDigit_not_space c Hc).
    rewrite (isDigit_readSign c s0 Hc). cbn [fst snd].
    rewrite (Hun _ v Hv'). f_equal; lia.
Qed.

Lemma digitsPrefix_started (R : Z) (s : string) (acc : Z) :
  digitsPrefix R s (Some acc) <> None.
Proof.
  revert acc. induction s as [|c s IH]; intros acc; simpl.
  - discriminate.
  - destruct (radixDigit R c); [apply IH | discriminate].
Qed.

(** [parseInt] gives [NaN] exactly when what follows the white space, the
    sign and the radix prefix does not begin with a digit of the radix. *)
Lemma parseInt_NaN (s : string) :
  parseInt s = None
  <-> match snd (readRadix (snd (readSign (trimStart s)))) with
      | EmptyString => True
      | String c _ =>
          radixDigit (fst (readRadix (snd (readSign (trimStart s))))) c = None
      end.
Proof.
  rewrite parseInt_steps.
  destruct (snd (readRadix (snd (readSign (trimStart s))))) as [|c rest];
    simpl.
  - tauto.
  - destruct (radixDigit _ c) as [d|] eqn:E.
    + destruct (digitsPrefix _ rest _) eqn:E'.
      * split; discriminate.
      * exfalso. exact (digitsPrefix_started _ _ _ E').
    + tauto.
Qed.

(** ** The properties of the specification: the routes *)

(** C7, as stated, fails on a parameter that is not a number but begins
    with one: [parseInt] reads the leading integer and ignores the rest.
    With [days=7days] the statistics are computed over 7 days, not over
    the default 30. *)
Lemma getApiStats_days_with_suffix :
  decimalValue "7days" = None
  /\ queryDays (Some "7days"%string) = 7
  /\ getApiStats utcDaysBefore (Some 1) (Some "7days"%string)
                 (10 * day) (10 * day) scenarioA
     <> Stats_json (getWorkoutStats utcDaysBefore scenarioA 1 (Some 30)
                                    (10 * day) (10 * day)).
Proof.
  split; [reflexivity|]. split; [reflexivity|].
  intros H. vm_compute in H. discriminate H.
Qed.

(** C7, amended.  [GET /api/stats] computes the statistics with the window
    length [queryDays], which is always positive.  It is the default 30
    when no parameter is supplied or the parameter is empty, when
    [parseInt] finds no leading integer in it (after white space and a
    sign), and when the leading integer is zero or negative; no error is
    reported.  Otherwise it is the leading integer: a numeric parameter
    above zero is used as it is, and text after the digits is ignored. *)
Theorem getApiStats_window (daysBefore : Date -> Z -> option Date)
    (uid : Z)
    (query_days : option string) (now1 now2 : Date) (storage : MemStorage) :
  getApiStats daysBefore (Some uid) query_days now1 now2 storage
  = Stats_json (getWorkoutStats daysBefore storage uid
                                (Some (queryDays query_days)) now1 now2)
  /\ 0 < queryDays query_days
  /\ (query_days = None \/ query_days = Some EmptyString ->
      queryDays query_days = 30)
  /\ (forall s, query_days = Some s -> parseInt s = None ->
                queryDays query_days = 30)
  /\ (forall s n, query_days = Some s -> parseInt s = Some n -> n <= 0 ->
                  queryDays query_days = 30)
  /\ (forall s n, query_days = Some s -> parseInt s = Some n -> 0 < n ->
                  queryDays query_days = n)
  /\ (forall s v, query_days = Some s -> decimalValue s = Some v ->
                  queryDays query_days = if v <=? 0 then 30 else v).
Proof.
  split; [reflexivity|].
  assert (Hq : forall s, query_days = Some s ->
             queryDays query_days
             = match parseInt s with
               | None => 30
               | Some n => if n <=? 0 then 30 else n
               end).
  { intros s ->. destruct s as [|c s]; reflexivity. }
  split; [|split; [|split; [|split; [|split]]]].
  - destruct query_days as [s|]; [|reflexivity].
    rewrite (Hq s eq_refl). destruct (parseInt s) as [n|]; [|lia].
    destruct (Z.leb_spec n 0); lia.
  - intros [-> | ->]; reflexivity.
  - intros s Hs Hnan. rewrite (Hq s Hs), Hnan. reflexivity.
  - intros s n Hs Hn Hle. rewrite (Hq s Hs), Hn.
    apply Z.leb_le in Hle. now rewrite Hle.
  - intros s n Hs Hn Hlt. rewrite (Hq s Hs), Hn.
    apply Z.leb_gt in Hlt. now rewrite Hlt.
  - intros s v Hs Hv. rewrite (Hq s Hs), (parseInt_decimal s v Hv).
    reflexivity.
Qed.

Lemma getApiStats_window_witness :
  parseInt "abc" = None
  /\ queryDays (Some "abc"%string) = 30
  /\ decimalValue "-3" = Some (-3)
  /\ queryDays (Some "-3"%string) = 30
  /\ decimalValue "14" = Some 14
  /\ queryDays (Some "14"%string) = 14
  /\ parseInt "7days" = Some 7
  /\ queryDays (Some "7days"%string) = 7
  /\ queryDays None = 30.
Proof.
  destruct (getApiStats_window utcDaysBefore 1 (Some "abc"%string) 0 0
              MemStorage_new) as (_ & _ & _ & Hnan & _).
  destruct (getApiStats_window utcDaysBefore 1 (Some "-3"%string) 0 0
              MemStorage_new) as (_ & _ & _ & _ & _ & _ & Hneg).
  destruct (getApiStats_window utcDaysBefore 1 (Some "14"%string) 0 0
              MemStorage_new) as (_ & _ & _ & _ & _ & _ & Hpos).
  destruct (getApiStats_window utcDaysBefore 1 (Some "7days"%string) 0 0
              MemStorage_new) as (_ & _ & _ & _ & _ & Hsuffix & _).
  destruct (getApiStats_window utcDaysBefore 1 None 0 0 MemStorage_new)
    as (_ & _ & Hdefault & _).
  assert (H7 : 0 < 7) by lia.
  exact (conj eq_refl (conj (Hnan _ eq_refl eq_refl)
        (conj eq_refl (conj (Hneg _ _ eq_refl eq_refl)
        (conj eq_refl (conj (Hpos _ _ eq_refl eq_refl)
        (conj eq_refl (conj (Hsuffix _ _ eq_refl eq_refl H7)
                            (Hdefault (or_introl eq_refl)))))))))).
Defined.

(** C8 states that a create-log request with a negative [waterIntake] is
    rejected and that no stored log has a negative numeric field.  The
    schema of the route has no lower bound on its numeric fields (the form
    of the client adds [min(0)] to each, the route does not), with either
    version of the integer check: the request below is answered [201] and
    a log with [waterIntake = -5] is stored. *)
Theorem postApiLogs_negative_accepted :
  let stored := {| id := 1; userId := 1; workoutId := None; date := 1000;
                   completedExercises := 0; waterIntake := -5;
                   duration := 0; notes := None |} in
  postApiLogs anyInteger (Some 1) negativeWater 1000 MemStorage_new
  = (Logs_status201 stored,
     {| workoutLogs := [(1, stored)]; currentWorkoutLogId := 2 |})
  /\ postApiLogs int32Range (Some 1) negativeWater 1000 MemStorage_new
     = (Logs_status201 stored,
        {| workoutLogs := [(1, stored)]; currentWorkoutLogId := 2 |})
  /\ waterIntake stored < 0.
Proof.
  split; [reflexivity|]. split; [reflexivity|]. simpl. lia.
Qed.

(** ** Facts about [Number_toString] *)

Lemma digitChar_digit (d : Z) :
  0 <= d < 10 ->
  isDigit (digitChar d) = true
  /\ Z.of_N (N_of_ascii (digitChar d)) = 48 + d.
Proof.
  intros Hd.
  assert (H : d = 0 \/ d = 1 \/ d = 2 \/ d = 3 \/ d = 4 \/ d = 5 \/ d = 6
              \/ d = 7 \/ d = 8 \/ d = 9) by lia.
  repeat (destruct H as [-> | H]; [split; reflexivity|]).
  subst d. split; reflexivity.
Qed.

Lemma isDigit_unsigned (c : ascii) (s : string) :
  isDigit c = true ->
  decimalValue (String c s) = unsignedValue (String c s).
Proof.
  each_char c; intros H; first [reflexivity | discriminate H].
Qed.

(** Reading back the digits written by [digitsOf]: they continue the value
    [a] by the number [n], and the first of them is a digit. *)
Lemma digitsOf_value (fuel : nat) :
  forall n, 0 <= n < 2 ^ Z.of_nat fuel -> (0 < fuel)%nat ->
    (exists k, 0 <= k /\ forall acc a,
         digitsValue (digitsOf fuel n acc) a
         = digitsValue acc (a * 10 ^ k + n))
    /\ (forall acc, exists c rest,
           digitsOf fuel n acc = String c rest /\ isDigit c = true).
Proof.
  induction fuel as [|fuel IH]; intros n Hn Hfuel; [lia|].
  pose proof (Z.mod_pos_bound n 10 ltac:(lia)) as Hmod.
  pose proof (Z.div_mod n 10 ltac:(lia)) as Hdiv.
  destruct (digitChar_digit (n mod 10) Hmod) as [Hisd Hcode].
  cbn [digitsOf]. destruct (n / 10 =? 0) eqn:E.
  - apply Z.eqb_eq in E. split.
    + exists 1. split; [lia|]. intros acc a. cbn [digitsValue].
      rewrite Hisd, Hcode. f_equal. lia.
    + intros acc. eauto.
  - apply Z.eqb_neq in E.
    assert (Hq : 0 < n / 10) by (pose proof (Z.div_pos n 10); lia).
    assert (Hpow : 2 ^ Z.of_nat (S fuel) = 2 * 2 ^ Z.of_nat fuel)
      by (rewrite Nat2Z.inj_succ, Z.pow_succ_r; lia).
    assert (Hfuel' : (0 < fuel)%nat).
    { destruct fuel; [|lia]. simpl in Hn. lia. }
    assert (Hn' : 0 <= n / 10 < 2 ^ Z.of_nat fuel) by lia.
    destruct (IH (n / 10) Hn' Hfuel') as [(k & Hk & Hval) Hfirst].
    split.
    + exists (k + 1). split; [lia|]. intros acc a. rewrite Hval.
      cbn [digitsValue]. rewrite Hisd, Hcode. f_equal.
      rewrite Z.pow_add_r by lia. lia.
    + intros acc. apply Hfirst.
Qed.

Lemma fuel_enough (n : Z) :
  0 <= n -> 0 <= n < 2 ^ Z.of_nat (S (Z.to_nat (Z.log2 n))).
Proof.
  intros Hn. rewrite Nat2Z.inj_succ, Z2Nat.id by apply Z.log2_nonneg.
  destruct (Z.eq_dec n 0) as [-> | Hne]; [simpl; lia|].
  pose proof (Z.log2_spec n ltac:(lia)). lia.
Qed.

Lemma decimalValue_toString (n : Z) :
  decimalValue (Number_toString n) = Some n.
Proof.
  assert (Hpos : forall m, 0 <= m ->
            exists c rest,
              digitsOf (S (Z.to_nat (Z.log2 m))) m EmptyString = String c rest
              /\ isDigit c = true
              /\ unsignedValue (String c rest) = Some m).
  { intros m Hm.
    destruct (digitsOf_value _ m (fuel_enough m Hm) ltac:(lia))
      as [(k & _ & Hval) Hfirst].
    destruct (Hfirst EmptyString) as (c & rest & Heq & Hc).
    exists c, rest. split; [exact Heq|]. split; [exact Hc|].
    unfold unsignedValue. rewrite <- Heq, Hval. reflexivity. }
  unfold Number_toString. destruct (n <? 0) eqn:E.
  - apply Z.ltb_lt in E.
    destruct (Hpos (- n) ltac:(lia)) as (c & rest & Heq & _ & Hv).
    rewrite Heq. cbn [decimalValue]. rewrite Hv. simpl. f_equal; lia.
  - apply Z.ltb_ge in E.
    destruct (Hpos n E) as (c & rest & Heq & Hc & Hv).
    rewrite Heq, (isDigit_unsigned c rest Hc). exact Hv.
Qed.

(** ** Further facts about the log store *)

Lemma inWindow_after_create (log : InsertWorkoutLog) (now : Date)
    (this : MemStorage) (uid : Z) (startDate endDate : option Date) :
  storeInv this ->
  inWindow (snd (createWorkoutLog log now this)) uid startDate endDate
  = inWindow this uid startDate endDate
    ++ (if selected uid startDate endDate (fst (createWorkoutLog log now this))
        then [fst (createWorkoutLog log now this)] else []).
Proof.
  intros Hinv. unfold inWindow.
  rewrite (createWorkoutLog_appends log now this Hinv).
  unfold JsMap.values. rewrite map_app, filter_app. reflexivity.
Qed.

Lemma getWorkoutLogs_of_window (this this' : MemStorage) (uid : Z)
    (startDate endDate : option Date) :
  inWindow this' uid startDate endDate = inWindow this uid startDate endDate ->
  getWorkoutLogs this' uid startDate endDate
  = getWorkoutLogs this uid startDate endDate.
Proof.
  intros H. unfold getWorkoutLogs. rewrite !getWorkoutLogs_unsorted.
  now rewrite H.
Qed.

(** The three totals of [getWorkoutStats], whether the window is empty or
    not. *)
Lemma getWorkoutStats_window_totals (daysBefore : Date -> Z -> option Date)
    (this : MemStorage) (uid : Z) (days_arg : option Z) (now1 now2 : Date)
    (start : Date) :
  daysBefore now2 (orDefault days_arg 30) = Some start ->
  let window := inWindow this uid (Some start) (Some now1) in
  let stats := getWorkoutStats daysBefore this uid days_arg now1 now2 in
  totalWorkouts stats = Z.of_nat (length window)
  /\ totalWaterIntake stats = sumZ (map waterIntake window)
  /\ totalDuration stats = sumZ (map duration window).
Proof.
  intros Hstart window stats.
  pose proof (getWorkoutLogs_perm this uid (Some start) (Some now1))
    as Hperm.
  fold window in Hperm.
  destruct (getWorkoutLogs this uid (Some start) (Some now1))
    as [|log0 rest] eqn:E.
  - apply Permutation_nil in Hperm.
    unfold stats.
    rewrite (getWorkoutStats_empty daysBefore this uid days_arg now1 now2
               start Hstart E), Hperm.
    repeat split.
  - assert (Hne : getWorkoutLogs this uid (Some start) (Some now1) <> [])
      by (rewrite E; discriminate).
    unfold stats.
    rewrite (getWorkoutStats_nonempty daysBefore this uid days_arg now1 now2
               start Hstart Hne).
    rewrite E. cbn [totalWorkouts totalWaterIntake totalDuration].
    split; [|split].
    + f_equal. now apply Permutation_length.
    + now apply reduce_sum_window.
    + now apply reduce_sum_window.
Qed.

(** The [lastWorkoutDate] of [getWorkoutStats] in terms of the window. *)
Lemma getWorkoutStats_last (daysBefore : Date -> Z -> option Date)
    (this : MemStorage) (uid : Z) (days_arg : option Z) (now1 now2 : Date)
    (start : Date) :
  daysBefore now2 (orDefault days_arg 30) = Some start ->
  let window := inWindow this uid (Some start) (Some now1) in
  let stats := getWorkoutStats daysBefore this uid days_arg now1 now2 in
  match lastWorkoutDate stats with
  | None => window = []
  | Some d => (exists log, In log window /\ date log = d)
              /\ forall log, In log window -> date log <= d
  end.
Proof.
  intros Hstart window stats.
  pose proof (getWorkoutLogs_perm this uid (Some start) (Some now1))
    as Hperm.
  pose proof (getWorkoutLogs_sorted this uid (Some start) (Some now1))
    as Hsorted.
  apply sorted_head_max in Hsorted.
  fold window in Hperm.
  destruct (getWorkoutLogs this uid (Some start) (Some now1))
    as [|log0 rest] eqn:E.
  - apply Permutation_nil in Hperm.
    unfold stats.
    rewrite (getWorkoutStats_empty daysBefore this uid days_arg now1 now2
               start Hstart E).
    exact Hperm.
  - assert (Hne : getWorkoutLogs this uid (Some start) (Some now1) <> [])
      by (rewrite E; discriminate).
    unfold stats.
    rewrite (getWorkoutStats_nonempty daysBefore this uid days_arg now1 now2
               start Hstart Hne).
    rewrite E. cbn [lastWorkoutDate hd_error option_map]. split.
    + exists log0. split; [|reflexivity].
      eapply Permutation_in; [exact Hperm | now left].
    + intros log Hin. apply Hsorted.
      eapply Permutation_in; [apply Permutation_sym; exact Hperm | exact Hin].
Qed.

(** ** More properties of the log store *)

(** X1.  Logs of the same date are listed by [getWorkoutLogs] in the order
    in which the store holds them, which is the order of their creation:
    the sort is stable. *)
Theorem getWorkoutLogs_ties_in_store_order (this : MemStorage) (uid : Z)
    (startDate endDate : option Date) (d : Date) :
  filter (fun log => date log =? d)
         (getWorkoutLogs this uid startDate endDate)
  = filter (fun log => (date log =? d) && selected uid startDate endDate log)
           (JsMap.values (workoutLogs this)).
Proof.
  unfold getWorkoutLogs. rewrite getWorkoutLogs_unsorted.
  rewrite Array_sort_stable.
  - unfold inWindow. rewrite filter_twice. apply filter_ext.
    intros log. apply andb_comm.
  - intros a b Ha Hb.
    apply Z.eqb_eq in Ha. apply Z.eqb_eq in Hb. unfold byDateDesc. lia.
Qed.

Lemma percentage_bounds (done expected : Z) :
  0 <= done -> 0 < expected ->
  let p := Qmult (Qdiv (inject_Z done) (inject_Z expected)) 100 in
  Qle 0 (Qmin 100 p) /\ Qle (Qmin 100 p) 100
  /\ (Qeq (Qmin 100 p) 100 <-> expected <= done).
Proof.
  intros Hdone Hexp p.
  destruct expected as [|e|e]; try lia.
  assert (Hp0 : Qle 0 p).
  { unfold p, Qle, Qdiv, Qmult, Qinv, inject_Z. simpl. nia. }
  assert (Hp100 : Qle 100 p <-> Z.pos e <= done).
  { unfold p, Qle, Qdiv, Qmult, Qinv, inject_Z. simpl.
    rewrite ?Pos.mul_1_r, ?Pos.mul_1_l, ?Z.mul_1_r. lia. }
  destruct (Q.min_spec 100 p) as [[Hlt Hmin] | [Hle Hmin]].
  - split; [rewrite Hmin; discriminate|].
    split; [rewrite Hmin; apply Qle_refl|].
    split; [intros _; apply Hp100, Qlt_le_weak, Hlt | intros _; exact Hmin].
  - split; [rewrite Hmin; exact Hp0|].
    split; [rewrite Hmin; exact Hle|].
    rewrite Hmin. split.
    + intros Heq. apply Hp100. rewrite Heq. apply Qle_refl.
    + intros Hge. apply Qle_antisym; [exact Hle | now apply Hp100].
Qed.

(** X2.  For every store, user, window length and time,
    [completionPercentage] lies between 0 and 100 and [totalWorkouts] is
    not negative.  When the window has at least one whole week and is not
    empty, the percentage is 100 exactly when the number of workouts
    reaches three per whole week.  (A window whose start is not a date
    holds no log.) *)
Theorem getWorkoutStats_percentage_bounds
    (daysBefore : Date -> Z -> option Date)
    (this : MemStorage) (uid : Z) (days_arg : option Z) (now1 now2 : Date) :
  let days := orDefault days_arg 30 in
  let stats := getWorkoutStats daysBefore this uid days_arg now1 now2 in
  Qle 0 (completionPercentage stats)
  /\ Qle (completionPercentage stats) 100
  /\ 0 <= totalWorkouts stats
  /\ (forall start,
         daysBefore now2 days = Some start ->
         7 <= days ->
         inWindow this uid (Some start) (Some now1) <> [] ->
         (Qeq (completionPercentage stats) 100
          <-> days / 7 * 3 <= totalWorkouts stats)).
Proof.
  intros days stats.
  destruct (daysBefore now2 days) as [s|] eqn:Hs.
  2:{ assert (Hz : stats = zeroStats)
        by (apply getWorkoutStats_invalid; exact Hs).
      rewrite Hz. simpl.
      split; [discriminate|]. split; [discriminate|]. split; [lia|].
      intros start Hsome. discriminate Hsome. }
  destruct (getWorkoutLogs this uid (Some s) (Some now1))
    as [|log0 rest] eqn:E.
  - assert (Hz : stats = zeroStats)
      by (apply (getWorkoutStats_empty daysBefore this uid days_arg now1 now2
                   s Hs); exact E).
    rewrite Hz. simpl.
    split; [discriminate|]. split; [discriminate|]. split; [lia|].
    intros start Hsome _ Hne. injection Hsome as <-.
    exfalso. apply Hne. now apply getWorkoutLogs_nil.
  - assert (Hne : getWorkoutLogs this uid (Some s) (Some now1) <> [])
      by (rewrite E; discriminate).
    assert (Hstats := getWorkoutStats_nonempty daysBefore this uid days_arg
                        now1 now2 s Hs Hne).
    fold days in Hstats. fold stats in Hstats.
    rewrite Hstats. cbn [completionPercentage totalWorkouts].
    unfold expectedWorkoutsOf.
    assert (Hdone : 0 <= Z.of_nat (length (getWorkoutLogs this uid
                       (Some s) (Some now1)))) by lia.
    destruct (days / 7 * 3 >? 0) eqn:Eexp.
    + apply Z.gtb_lt in Eexp.
      destruct (percentage_bounds _ _ Hdone Eexp) as (H0 & H100 & Hiff).
      split; [exact H0|]. split; [exact H100|]. split; [exact Hdone|].
      intros start _ _ _. exact Hiff.
    + split; [discriminate|]. split; [discriminate|]. split; [exact Hdone|].
      intros start _ Hweek _. exfalso.
      assert (1 <= days / 7) by (apply Z.div_le_lower_bound; lia).
      assert (Hgt : (days / 7 * 3 >? 0) = true) by (apply Z.gtb_lt; lia).
      congruence.
Qed.

Lemma getWorkoutStats_percentage_bounds_witness :
  utcDaysBefore (6 * day) 7 = Some (6 * day - 7 * day)
  /\ 7 <= 7
  /\ inWindow scenarioA 1 (Some (6 * day - 7 * day)) (Some (6 * day)) <> []
  /\ Qeq (completionPercentage
            (getWorkoutStats utcDaysBefore scenarioA 1 (Some 7)
                             (6 * day) (6 * day))) 100
  /\ 7 / 7 * 3
     <= totalWorkouts (getWorkoutStats utcDaysBefore scenarioA 1 (Some 7)
                                       (6 * day) (6 * day)).
Proof.
  assert (Hstart : utcDaysBefore (6 * day) 7 = Some (6 * day - 7 * day))
    by reflexivity.
  assert (Hweek : 7 <= 7) by lia.
  assert (Hne : inWindow scenarioA 1 (Some (6 * day - 7 * day))
                  (Some (6 * day)) <> []) by (vm_compute; discriminate).
  destruct (getWorkoutStats_percentage_bounds utcDaysBefore scenarioA 1
              (Some 7) (6 * day) (6 * day)) as (_ & _ & _ & Hiff).
  assert (Hfive : 7 / 7 * 3
                  <= totalWorkouts (getWorkoutStats utcDaysBefore scenarioA 1
                                      (Some 7) (6 * day) (6 * day)))
    by (vm_compute; discriminate).
  exact (conj Hstart (conj Hweek (conj Hne
          (conj (proj2 (Hiff _ Hstart Hweek Hne) Hfive) Hfive)))).
Defined.

(** X3.  A log created for one user changes nothing for another: on a
    storage built by the program, after [createWorkoutLog] for a user
    other than [uid], the listing of [getWorkoutLogs] for [uid] and the
    statistics of [getWorkoutStats] for [uid] are what they were. *)
Theorem createWorkoutLog_other_user (this : MemStorage)
    (log : InsertWorkoutLog) (now : Date) (uid : Z) :
  reachable this ->
  in_userId log <> uid ->
  let this' := snd (createWorkoutLog log now this) in
  (forall startDate endDate,
      getWorkoutLogs this' uid startDate endDate
      = getWorkoutLogs this uid startDate endDate)
  /\ (forall daysBefore days_arg now1 now2,
         getWorkoutStats daysBefore this' uid days_arg now1 now2
         = getWorkoutStats daysBefore this uid days_arg now1 now2).
Proof.
  intros Hreach Hother this'. apply reachable_inv in Hreach.
  assert (Hlogs : forall startDate endDate,
             getWorkoutLogs this' uid startDate endDate
             = getWorkoutLogs this uid startDate endDate).
  { intros startDate endDate. apply getWorkoutLogs_of_window.
    unfold this'. rewrite (inWindow_after_create _ _ _ _ _ _ Hreach).
    replace (selected uid startDate endDate
               (fst (createWorkoutLog log now this))) with false.
    - apply app_nil_r.
    - symmetry. unfold selected. cbn [createWorkoutLog fst userId].
      replace (in_userId log =? uid) with false; [reflexivity|].
      symmetry. now apply Z.eqb_neq. }
  split; [exact Hlogs|].
  intros daysBefore days_arg now1 now2. apply getWorkoutStats_of_logs.
  destruct (daysBefore now2 (orDefault days_arg 30)) as [start|].
  - rewrite !getWorkoutLogsBetween_valid. apply Hlogs.
  - now rewrite !getWorkoutLogsBetween_invalid.
Qed.

Lemma createWorkoutLog_other_user_witness :
  reachable scenarioA
  /\ in_userId (session 2 (5 * day) 900 60) <> 1
  /\ getWorkoutStats utcDaysBefore
       (snd (createWorkoutLog (session 2 (5 * day) 900 60) 0 scenarioA))
       1 (Some 30) (6 * day) (6 * day)
     = getWorkoutStats utcDaysBefore scenarioA 1 (Some 30) (6 * day) (6 * day).
Proof.
  assert (Hreach : reachable scenarioA)
    by (apply run_reachable, reachable_new).
  assert (Hother : in_userId (session 2 (5 * day) 900 60) <> 1)
    by (simpl; lia).
  destruct (createWorkoutLog_other_user scenarioA
              (session 2 (5 * day) 900 60) 0 1 Hreach Hother) as (_ & Hstats).
  exact (conj Hreach (conj Hother
          (Hstats utcDaysBefore (Some 30) (6 * day) (6 * day)))).
Defined.

Lemma sumZ_app (l1 l2 : list Z) : sumZ (l1 ++ l2) = sumZ l1 + sumZ l2.
Proof.
  induction l1 as [|x l1 IH]; simpl; lia.
Qed.

(** X4.  On a storage built by the program, when the start of the window
    is a date, creating a log whose date is in the window of its user
    raises that user's [totalWorkouts] by one, [totalWaterIntake] and
    [totalDuration] by the log's water and duration, and makes
    [lastWorkoutDate] the later of the former one and the log's date;
    creating a log dated outside the window leaves the statistics as they
    were.  When the start of the window is not a date, the statistics are
    the zero record before and after. *)
Theorem createWorkoutLog_updates_stats
    (daysBefore : Date -> Z -> option Date)
    (this : MemStorage) (log : InsertWorkoutLog) (now : Date)
    (days_arg : option Z) (now1 now2 : Date) :
  reachable this ->
  let uid := in_userId log in
  let r := fst (createWorkoutLog log now this) in
  let this' := snd (createWorkoutLog log now this) in
  let stats := getWorkoutStats daysBefore this uid days_arg now1 now2 in
  let stats' := getWorkoutStats daysBefore this' uid days_arg now1 now2 in
  (forall startDate,
      daysBefore now2 (orDefault days_arg 30) = Some startDate ->
      (startDate <= date r <= now1 ->
       totalWorkouts stats' = totalWorkouts stats + 1
       /\ totalWaterIntake stats' = totalWaterIntake stats + waterIntake r
       /\ totalDuration stats' = totalDuration stats + duration r
       /\ lastWorkoutDate stats'
          = Some (match lastWorkoutDate stats with
                  | Some d => Z.max d (date r)
                  | None => date r
                  end))
      /\ (~ (startDate <= date r <= now1) -> stats' = stats))
  /\ (daysBefore now2 (orDefault days_arg 30) = None ->
      stats = zeroStats /\ stats' = zeroStats).
Proof.
  intros Hreach uid r this' stats stats'.
  apply reachable_inv in Hreach. split.
  2:{ intros Hnone. unfold stats, stats'.
      now rewrite !(getWorkoutStats_invalid daysBefore _ uid days_arg
                      now1 now2 Hnone). }
  intros startDate Hstart.
  pose proof (inWindow_after_create log now this uid (Some startDate)
                (Some now1) Hreach) as Hwin.
  fold r in Hwin. fold this' in Hwin.
  assert (Hsel : selected uid (Some startDate) (Some now1) r = true
                 <-> startDate <= date r <= now1).
  { rewrite selected_spec. split.
    - intros (_ & Hs & He). split; [apply Hs | apply He]; reflexivity.
    - intros [Hs He]. split; [reflexivity|].
      split; intros d [= <-]; assumption. }
  split.
  - intros Hin. apply Hsel in Hin. rewrite Hin in Hwin.
    destruct (getWorkoutStats_window_totals daysBefore this uid days_arg
                now1 now2 startDate Hstart) as (Hn & Hw & Hd).
    destruct (getWorkoutStats_window_totals daysBefore this' uid days_arg
                now1 now2 startDate Hstart) as (Hn' & Hw' & Hd').
    fold stats in Hn, Hw, Hd. fold stats' in Hn', Hw', Hd'.
    rewrite Hwin in Hn', Hw', Hd'.
    rewrite length_app, Nat2Z.inj_add in Hn'.
    change (Z.of_nat (length [r])) with 1 in Hn'.
    rewrite map_app, sumZ_app in Hw', Hd'.
    cbn [map sumZ fold_right] in Hw', Hd'.
    split; [lia|]. split; [lia|]. split; [lia|].
    pose proof (getWorkoutStats_last daysBefore this uid days_arg now1 now2
                  startDate Hstart) as Hlast.
    pose proof (getWorkoutStats_last daysBefore this' uid days_arg now1 now2
                  startDate Hstart) as Hlast'.
    cbv zeta in Hlast, Hlast'.
    fold uid in Hlast, Hlast'.
    fold this' in Hlast'. fold stats in Hlast.
    fold stats' in Hlast'. rewrite Hwin in Hlast'.
    destruct (lastWorkoutDate stats') as [d'|].
    + destruct Hlast' as [(l' & Hl' & Hd'eq) Hmax']. f_equal.
      assert (Hr : date r <= d')
        by (apply Hmax', in_or_app; right; now left).
      apply in_app_or in Hl'.
      destruct (lastWorkoutDate stats) as [d|].
      * destruct Hlast as [(l & Hl & Hdeq) Hmax].
        assert (d <= d')
          by (rewrite <- Hdeq; apply Hmax', in_or_app; now left).
        destruct Hl' as [Hl' | [<- | []]].
        -- specialize (Hmax l' Hl'). lia.
        -- lia.
      * rewrite Hlast in Hl'. destruct Hl' as [[] | [<- | []]]. lia.
    + exfalso. destruct (inWindow this uid (Some startDate) (Some now1));
        discriminate Hlast'.
  - intros Hout.
    assert (Hf : selected uid (Some startDate) (Some now1) r = false).
    { destruct (selected uid (Some startDate) (Some now1) r) eqn:E;
        [|reflexivity]. exfalso. apply Hout, Hsel. reflexivity. }
    rewrite Hf, app_nil_r in Hwin.
    unfold stats', stats. apply getWorkoutStats_of_logs.
    rewrite Hstart, !getWorkoutLogsBetween_valid.
    now apply getWorkoutLogs_of_window.
Qed.

Lemma createWorkoutLog_updates_stats_witness :
  let log := session 1 (6 * day) 350 900 in
  let stats := getWorkoutStats utcDaysBefore scenarioA 1 (Some 30)
                               (6 * day) (6 * day) in
  let stats' := getWorkoutStats utcDaysBefore
                  (snd (createWorkoutLog log 0 scenarioA)) 1 (Some 30)
                  (6 * day) (6 * day) in
  reachable scenarioA
  /\ utcDaysBefore (6 * day) 30 = Some (6 * day - 30 * day)
  /\ 6 * day - 30 * day <= 6 * day <= 6 * day
  /\ totalWorkouts stats' = 6
  /\ totalWaterIntake stats' = 1850
  /\ lastWorkoutDate stats' = Some (6 * day).
Proof.
  assert (Hreach : reachable scenarioA)
    by (apply run_reachable, reachable_new).
  assert (Hstart : utcDaysBefore (6 * day) 30 = Some (6 * day - 30 * day))
    by reflexivity.
  assert (Hin : 6 * day - 30 * day <= 6 * day <= 6 * day)
    by (unfold day; lia).
  destruct (createWorkoutLog_updates_stats utcDaysBefore scenarioA
              (session 1 (6 * day) 350 900) 0 (Some 30) (6 * day) (6 * day)
              Hreach) as (Hvalid & _).
  destruct (Hvalid _ Hstart) as (Hadd & _).
  destruct (Hadd Hin) as (Hn & Hw & _ & Hl).
  exact (conj Hreach (conj Hstart (conj Hin (conj Hn (conj Hw Hl))))).
Defined.

(** ** Facts about [insertWorkoutLogSchema] *)

Section InsertSchemaFacts.

Variable integerColumn : Z -> bool.

Lemma zNumber_issues (key : string) (v : JsValue) (issues : list ZodIssue) :
  zNumber integerColumn key v = inl issues -> issues <> [].
Proof.
  unfold zNumber. destruct v; try (intros [= <-]; discriminate).
  destruct (integerColumn n); intros [= <-]; discriminate.
Qed.

Lemma zDate_issues (key : string) (v : JsValue) (issues : list ZodIssue) :
  zDate key v = inl issues -> issues <> [].
Proof.
  unfold zDate. destruct v; intros [= <-]; discriminate.
Qed.

Lemma zString_issues (key : string) (v : JsValue) (issues : list ZodIssue) :
  zString key v = inl issues -> issues <> [].
Proof.
  unfold zString. destruct v; intros [= <-]; discriminate.
Qed.

Lemma zOptional_issues {A : Type}
    (schema : string -> JsValue -> list ZodIssue + A) :
  (forall key v issues, schema key v = inl issues -> issues <> []) ->
  forall key v issues, zOptional schema key v = inl issues -> issues <> [].
Proof.
  intros Hs key v issues. unfold zOptional.
  destruct v; try discriminate;
    destruct (schema key _) as [l|a] eqn:E; intros [= <-];
    exact (Hs _ _ _ E).
Qed.

Lemma zNullable_issues {A : Type}
    (schema : string -> JsValue -> list ZodIssue + A) :
  (forall key v issues, schema key v = inl issues -> issues <> []) ->
  forall key v issues, zNullable schema key v = inl issues -> issues <> [].
Proof.
  intros Hs key v issues. unfold zNullable.
  destruct v; try discriminate;
    destruct (schema key _) as [l|a] eqn:E; intros [= <-];
    exact (Hs _ _ _ E).
Qed.

(** A [ZodError] carries at least one issue. *)
Lemma parse_error_nonempty (data : LogInput) (errors : list ZodIssue) :
  insertWorkoutLogSchema_parse integerColumn data = inl errors ->
  errors <> [].
Proof.
  unfold insertWorkoutLogSchema_parse.
  pose proof (zNumber_issues "userId" (v_userId data)) as H1.
  pose proof (zOptional_issues _ (zNullable_issues _ zNumber_issues)
                "workoutId" (v_workoutId data)) as H2.
  pose proof (zOptional_issues _ zDate_issues "date" (v_date data)) as H3.
  pose proof (zOptional_issues _ zNumber_issues "completedExercises"
                (v_completedExercises data)) as H4.
  pose proof (zOptional_issues _ zNumber_issues "waterIntake"
                (v_waterIntake data)) as H5.
  pose proof (zOptional_issues _ zNumber_issues "duration"
                (v_duration data)) as H6.
  pose proof (zOptional_issues _ (zNullable_issues _ zString_issues)
                "notes" (v_notes data)) as H7.
  destruct (zNumber integerColumn "userId" (v_userId data)) as [l1|];
    [specialize (H1 l1 eq_refl); destruct l1; [contradiction|]|];
  (destruct (zOptional (zNullable (zNumber integerColumn)) "workoutId" _)
     as [l2|];
   [specialize (H2 l2 eq_refl); destruct l2; [contradiction|]|]);
  (destruct (zOptional zDate "date" _) as [l3|];
   [specialize (H3 l3 eq_refl); destruct l3; [contradiction|]|]);
  (destruct (zOptional (zNumber integerColumn) "completedExercises" _)
     as [l4|];
   [specialize (H4 l4 eq_refl); destruct l4; [contradiction|]|]);
  (destruct (zOptional (zNumber integerColumn) "waterIntake" _) as [l5|];
   [specialize (H5 l5 eq_refl); destruct l5; [contradiction|]|]);
  (destruct (zOptional (zNumber integerColumn) "duration" _) as [l6|];
   [specialize (H6 l6 eq_refl); destruct l6; [contradiction|]|]);
  (destruct (zOptional (zNullable zString) "notes" _) as [l7|];
   [specialize (H7 l7 eq_refl); destruct l7; [contradiction|]|]);
  intros [= <-]; discriminate.
Qed.

(** The [userId] of the validated data is the one spread over the body. *)
Lemma parse_userId (body : LogInput) (uid : Z) (data : InsertWorkoutLog) :
  insertWorkoutLogSchema_parse integerColumn (withUserId body uid) = inr data ->
  in_userId data = uid.
Proof.
  unfold insertWorkoutLogSchema_parse. cbn [withUserId v_userId zNumber].
  destruct (integerColumn uid); [|discriminate].
  destruct (zOptional (zNullable (zNumber integerColumn)) "workoutId" _);
    [discriminate|];
  (destruct (zOptional zDate "date" _); [discriminate|]);
  (destruct (zOptional (zNumber integerColumn) "completedExercises" _);
   [discriminate|]);
  (destruct (zOptional (zNumber integerColumn) "waterIntake" _);
   [discriminate|]);
  (destruct (zOptional (zNumber integerColumn) "duration" _);
   [discriminate|]);
  (destruct (zOptional (zNullable zString) "notes" _); [discriminate|]).
  intros [= <-]. reflexivity.
Qed.

End InsertSchemaFacts.

(** ** More properties of the routes *)

(** X5.  [POST /api/logs] stores a log only in its [201] answer, and then
    the log belongs to the authenticated user, whatever [userId] the body
    carries, and is stored under the identifier the counter held.  A
    [400] answer carries at least one issue, a [401] answer is given
    exactly to unauthenticated requests, and in both the store is left as
    it was. *)
Theorem postApiLogs_owner (integerColumn : Z -> bool) (auth : option Z)
    (body : LogInput) (now : Date) (storage : MemStorage) :
  match postApiLogs integerColumn auth body now storage with
  | (Logs_status201 log, storage') =>
      auth = Some (userId log)
      /\ id log = currentWorkoutLogId storage
      /\ JsMap.get (id log) (workoutLogs storage') = Some log
      /\ currentWorkoutLogId storage' = currentWorkoutLogId storage + 1
  | (Logs_status400 errors, storage') =>
      errors <> [] /\ auth <> None /\ storage' = storage
  | (Logs_sendStatus401, storage') =>
      auth = None /\ storage' = storage
  end.
Proof.
  unfold postApiLogs. destruct auth as [uid|]; [|split; reflexivity].
  destruct (insertWorkoutLogSchema_parse integerColumn (withUserId body uid))
    as [errors|data] eqn:E.
  - split; [exact (parse_error_nonempty _ _ _ E)|].
    split; [discriminate | reflexivity].
  - apply parse_userId in E. unfold createWorkoutLog.
    cbn [userId id workoutLogs currentWorkoutLogId].
    split; [now rewrite E|]. split; [reflexivity|].
    split; [apply JsMap_get_set_same | reflexivity].
Qed.

(** X6.  An integer of magnitude below 2^53 that the statistics card puts
    in [/api/stats?days=...] reaches [getWorkoutStats] unchanged when it is
    positive: in that range the template literal writes the integer in
    decimal and [parseInt] reads it back, so the route computes the
    statistics over exactly the requested number of days, and over 30 when
    the number is zero or negative.  (Beyond that range the text is
    rounded or has an exponent, and nothing is stated.) *)
Theorem statsQuery_round_trip (days : Z) :
  safeInteger days ->
  parseInt (Number_toString days) = Some days
  /\ queryDays (statsQuery days) = (if days <=? 0 then 30 else days)
  /\ (0 < days ->
      forall daysBefore uid now1 now2 storage,
        getApiStats daysBefore (Some uid) (statsQuery days) now1 now2 storage
        = Stats_json (getWorkoutStats daysBefore storage uid (Some days)
                                      now1 now2)).
Proof.
  intros _.
  pose proof (decimalValue_toString days) as Hdec.
  pose proof (parseInt_decimal _ _ Hdec) as Hparse.
  assert (Hq : queryDays (statsQuery days) = if days <=? 0 then 30 else days).
  { unfold statsQuery, queryDays.
    destruct (Number_toString days) as [|c s]; [discriminate Hdec|].
    rewrite Hparse. reflexivity. }
  split; [exact Hparse|]. split; [exact Hq|].
  intros Hpos daysBefore uid now1 now2 storage.
  unfold getApiStats. rewrite Hq.
  apply Z.leb_gt in Hpos. now rewrite Hpos.
Qed.

Lemma statsQuery_round_trip_witness :
  safeInteger 14
  /\ 0 < 14
  /\ statsQuery 14 = Some "14"%string
  /\ getApiStats utcDaysBefore (Some 1) (statsQuery 14) (6 * day) (6 * day)
                 scenarioA
     = Stats_json (getWorkoutStats utcDaysBefore scenarioA 1 (Some 14)
                                   (6 * day) (6 * day)).
Proof.
  assert (Hsafe : safeInteger 14) by (unfold safeInteger; simpl; lia).
  assert (Hpos : 0 < 14) by lia.
  destruct (statsQuery_round_trip 14 Hsafe) as (_ & _ & Hroute).
  exact (conj Hsafe (conj Hpos (conj eq_refl
          (Hroute Hpos utcDaysBefore 1 (6 * day) (6 * day) scenarioA)))).
Defined.

(** ** Facts about the texts of [formatDuration] *)






(** ** Facts about maps filled under a counter *)

Lemma sorted_snoc (l : list Z) (a : Z) :
  StronglySorted Z.lt l -> Forall (fun x => x < a) l ->
  StronglySorted Z.lt (l ++ [a]).
Proof.
  induction 1 as [|x l Hl IH Hx]; intros Hall; simpl.
  - repeat constructor.
  - inversion Hall as [|? ? Hxa Hall']; subst.
    constructor; [now apply IH|].
    apply Forall_app. split; [exact Hx | repeat constructor; exact Hxa].
Qed.

Lemma JsMap_get_in {V : Type} (k : Z) (v : V) (m : JsMap.t V) :
  JsMap.get k m = Some v -> In (k, v) m.
Proof.
  induction m as [|[k' v'] m IH]; simpl; [discriminate|].
  destruct (k' =? k) eqn:E.
  - apply Z.eqb_eq in E. intros [= ->]. left. now subst.
  - intros H. right. now apply IH.
Qed.

Lemma JsMap_set_keys {V : Type} (k : Z) (v v0 : V) (m : JsMap.t V) :
  JsMap.get k m = Some v0 -> JsMap.keys (JsMap.set k v m) = JsMap.keys m.
Proof.
  induction m as [|[k' v'] m IH]; simpl; [discriminate|].
  destruct (k' =? k) eqn:E.
  - apply Z.eqb_eq in E. subst. reflexivity.
  - intros H. simpl. now rewrite IH.
Qed.

(** Replacing a value by one with the same image under [g] leaves the
    images of the values as they were. *)
Lemma JsMap_set_values_map {V W : Type} (g : V -> W) (k : Z) (v v0 : V)
    (m : JsMap.t V) :
  JsMap.get k m = Some v0 -> g v = g v0 ->
  map g (JsMap.values (JsMap.set k v m)) = map g (JsMap.values m).
Proof.
  intros Hget Hg. induction m as [|[k' v'] m IH]; simpl in *; [discriminate|].
  destruct (k' =? k) eqn:E.
  - injection Hget as ->. simpl. now rewrite Hg.
  - simpl. now rewrite IH.
Qed.

Section CountedFacts.

Context {V : Type}.
Variable idOf : V -> Z.

Lemma counted_fresh (m : JsMap.t V) (counter : Z) :
  counted idOf m counter -> ~ In counter (JsMap.keys m).
Proof.
  intros [_ Hall] Hin. unfold JsMap.keys in Hin.
  apply in_map_iff in Hin. destruct Hin as (kv & Hk & Hin).
  rewrite Forall_forall in Hall. specialize (Hall kv Hin). lia.
Qed.

Lemma counted_empty (counter : Z) : counted idOf JsMap.empty counter.
Proof. split; constructor. Qed.

Lemma counted_set_new (m : JsMap.t V) (counter : Z) (v : V) :
  counted idOf m counter -> idOf v = counter ->
  JsMap.set counter v m = m ++ [(counter, v)]
  /\ counted idOf (JsMap.set counter v m) (counter + 1).
Proof.
  intros Hc Hid. pose proof (counted_fresh m counter Hc) as Hfresh.
  rewrite (JsMap_set_fresh counter v m Hfresh). split; [reflexivity|].
  destruct Hc as [Hsorted Hall]. split.
  - unfold JsMap.keys in *. rewrite map_app. simpl.
    apply sorted_snoc; [exact Hsorted|].
    apply Forall_map. eapply Forall_impl; [|exact Hall].
    intros kv [Hlt _]. exact Hlt.
  - apply Forall_app. split.
    + eapply Forall_impl; [|exact Hall]. intros kv [Hlt Hkv]. split; [lia|].
      exact Hkv.
    + repeat constructor; simpl; [lia | exact Hid].
Qed.

Lemma counted_set_old (m : JsMap.t V) (counter k : Z) (v v0 : V) :
  counted idOf m counter -> JsMap.get k m = Some v0 -> idOf v = idOf v0 ->
  counted idOf (JsMap.set k v m) counter.
Proof.
  intros [Hsorted Hall] Hget Hid. split.
  - now rewrite (JsMap_set_keys k v v0 m Hget).
  - clear Hsorted. induction m as [|[k' v'] m IH]; simpl in *; [discriminate|].
    inversion Hall as [|? ? [Hlt Hkv] Hall']; subst. simpl in *.
    destruct (k' =? k) eqn:E.
    + apply Z.eqb_eq in E. subst k'. injection Hget as ->.
      constructor; [simpl; split; [lia | congruence] | exact Hall'].
    + constructor; [simpl; auto | now apply IH].
Qed.

Lemma counted_ids (m : JsMap.t V) (counter : Z) :
  counted idOf m counter -> map idOf (JsMap.values m) = JsMap.keys m.
Proof.
  intros [_ Hall]. unfold JsMap.values, JsMap.keys.
  induction Hall as [|kv m [_ Hid] _ IH]; simpl; [reflexivity|].
  now rewrite Hid, IH.
Qed.

Lemma counted_values_sorted (m : JsMap.t V) (counter : Z) :
  counted idOf m counter ->
  StronglySorted (fun a b => idOf a < idOf b) (JsMap.values m).
Proof.
  intros Hc. pose proof (counted_ids m counter Hc) as Hids.
  destruct Hc as [Hsorted _]. rewrite <- Hids in Hsorted.
  clear Hids. induction (JsMap.values m) as [|a l IH]; [constructor|].
  simpl in Hsorted. inversion Hsorted as [|? ? Hl Ha]; subst.
  constructor; [now apply IH|].
  rewrite Forall_forall in *. intros b Hb. apply Ha.
  now apply in_map.
Qed.

(** A stored value is found under its identifier. *)
Lemma counted_lookup (m : JsMap.t V) (counter : Z) (v : V) :
  counted idOf m counter -> In v (JsMap.values m) ->
  JsMap.get (idOf v) m = Some v.
Proof.
  intros [Hsorted Hall] Hin.
  induction m as [|[k' v'] m IH]; simpl in *; [contradiction|].
  apply Forall_cons_iff in Hall. destruct Hall as [[_ Hkv] Hall'].
  apply StronglySorted_inv in Hsorted. destruct Hsorted as [Hs Hk].
  simpl in Hkv. destruct Hin as [-> | Hin].
  - rewrite Hkv, Z.eqb_refl. reflexivity.
  - destruct (k' =? idOf v) eqn:E; [|now apply IH].
    apply Z.eqb_eq in E. exfalso.
    assert (Hmem : In (idOf v) (JsMap.keys m)).
    { unfold JsMap.values in Hin. apply in_map_iff in Hin.
      destruct Hin as ([k0 v0] & Hv0 & Hin0). simpl in Hv0. subst v0.
      rewrite Forall_forall in Hall'. destruct (Hall' _ Hin0) as [_ Hk0].
      simpl in Hk0. rewrite Hk0. unfold JsMap.keys.
      apply in_map_iff. exists (k0, v). auto. }
    rewrite Forall_forall in Hk. specialize (Hk _ Hmem). lia.
Qed.

(** In a list sorted by identifier [find] returns the match of least
    identifier. *)
Lemma find_least (f : V -> bool) (l : list V) (v : V) :
  StronglySorted (fun a b => idOf a < idOf b) l ->
  find f l = Some v ->
  forall v', In v' l -> f v' = true -> idOf v <= idOf v'.
Proof.
  induction 1 as [|a l Hl IH Ha]; simpl; [discriminate|].
  destruct (f a) eqn:E.
  - intros [= ->] v' [-> | Hin] _; [lia|].
    rewrite Forall_forall in Ha. specialize (Ha v' Hin). lia.
  - intros Hfind v' [-> | Hin] Hv'; [congruence|]. now apply IH.
Qed.

End CountedFacts.

Lemma find_snoc {A : Type} (f : A -> bool) (l : list A) (x : A) :
  find f (l ++ [x])
  = match find f l with
    | Some y => Some y
    | None => if f x then Some x else None
    end.
Proof.
  induction l as [|a l IH]; simpl; [reflexivity|].
  destruct (f a); [reflexivity | exact IH].
Qed.

(** ** Facts about the user store *)

Lemma reachableUsers_counted (this : UserStore) :
  reachableUsers this -> counted User.id (users this) (currentUserId this).
Proof.
  induction 1 as [|this insertUser _ IH
                  |this userId profileImage user this' _ IH Hupd
                  |this userId weight height fullName age user this' _ IH Hupd].
  - apply counted_empty.
  - unfold createUser. cbn [snd users currentUserId].
    apply counted_set_new; [exact IH | reflexivity].
  - unfold updateUserProfileImage in Hupd.
    destruct (JsMap.get userId (users this)) as [u|] eqn:E; [|discriminate].
    injection Hupd as <- <-. cbn [users currentUserId].
    eapply counted_set_old; [exact IH | exact E | reflexivity].
  - unfold updateUserStats in Hupd.
    destruct (JsMap.get userId (users this)) as [u|] eqn:E; [|discriminate].
    injection Hupd as <- <-. cbn [users currentUserId].
    eapply counted_set_old; [exact IH | exact E | reflexivity].
Qed.

Lemma orNumber_nonzero (x : option (option Z)) (d : Z) :
  d <> 0 -> exists n, orNumber x (Some d) = Some n /\ n <> 0.
Proof.
  intros Hd. unfold orNumber. destruct x as [[n|]|]; eauto.
  destruct (n =? 0) eqn:E; eauto. apply Z.eqb_neq in E. eauto.
Qed.

(** Two lists that agree on names and identifiers give the same answer, up
    to the identifier, to a search by name. *)
Lemma find_by_name_id (name : string) (l l' : list User.t) :
  map (fun u => (User.username u, User.id u)) l'
  = map (fun u => (User.username u, User.id u)) l ->
  option_map User.id (find (fun u => String.eqb (User.username u) name) l')
  = option_map User.id (find (fun u => String.eqb (User.username u) name) l).
Proof.
  revert l'. induction l as [|a l IH]; intros [|a' l'] H; try discriminate.
  - reflexivity.
  - simpl in *. injection H as Hn Hi Hl. rewrite Hn.
    destruct (String.eqb (User.username a) name); simpl; [congruence|].
    now apply IH.
Qed.

(** ** Properties of the user store *)

(** X8.  On a user store built by the program, [createUser] stores the
    new user under an identifier that was free, the value of the counter,
    and leaves every other user as it was.  The new user has the name and
    the password of the request and no profile image.  Its weight is
    70000 g when the request has no weight, a null weight or the weight 0,
    and the weight of the request otherwise; its height is 170 cm when the
    request has no height, a null height or the height 0, and the height
    of the request otherwise: neither is ever null or zero.  Its full name
    is null when the request has none, a null one or the empty one, and
    the name of the request otherwise; its age is null when the request
    has none, a null one or the age 0, and the age of the request
    otherwise. *)
Theorem createUser_fresh (this : UserStore) (insertUser : InsertUser.t) :
  reachableUsers this ->
  let user := fst (createUser insertUser this) in
  let this' := snd (createUser insertUser this) in
  getUser this (User.id user) = None
  /\ getUser this' (User.id user) = Some user
  /\ (forall k, k <> User.id user -> getUser this' k = getUser this k)
  /\ (exists w h, User.weight user = Some w /\ w <> 0
                  /\ User.height user = Some h /\ h <> 0)
  /\ (forall w, InsertUser.weight insertUser = Some (Some w) -> w <> 0 ->
                User.weight user = Some w)
  /\ (forall h, InsertUser.height insertUser = Some (Some h) -> h <> 0 ->
                User.height user = Some h)
  /\ User.fullName user <> Some EmptyString
  /\ User.age user <> Some 0
  /\ User.profileImage user = None
  /\ (InsertUser.weight insertUser = None
      \/ InsertUser.weight insertUser = Some None
      \/ InsertUser.weight insertUser = Some (Some 0) ->
      User.weight user = Some 70000)
  /\ (InsertUser.height insertUser = None
      \/ InsertUser.height insertUser = Some None
      \/ InsertUser.height insertUser = Some (Some 0) ->
      User.height user = Some 170)
  /\ (InsertUser.fullName insertUser = None
      \/ InsertUser.fullName insertUser = Some None
      \/ InsertUser.fullName insertUser = Some (Some EmptyString) ->
      User.fullName user = None)
  /\ (forall s, InsertUser.fullName insertUser = Some (Some s) ->
                s <> EmptyString -> User.fullName user = Some s)
  /\ (InsertUser.age insertUser = None
      \/ InsertUser.age insertUser = Some None
      \/ InsertUser.age insertUser = Some (Some 0) ->
      User.age user = None)
  /\ (forall n, InsertUser.age insertUser = Some (Some n) -> n <> 0 ->
                User.age user = Some n)
  /\ User.username user = InsertUser.username insertUser
  /\ User.password user = InsertUser.password insertUser
  /\ User.id user = currentUserId this
  /\ currentUserId this' = currentUserId this + 1.
Proof.
  intros Hreach user this'. apply reachableUsers_counted in Hreach.
  pose proof (counted_fresh _ _ _ Hreach) as Hfresh.
  split; [apply JsMap_get_absent; exact Hfresh|].
  split; [apply JsMap_get_set_same|].
  split; [intros k Hk; now apply JsMap_get_set_other|].
  split.
  { destruct (orNumber_nonzero (InsertUser.weight insertUser) 70000)
      as (w & Hw & Hw0); [lia|].
    destruct (orNumber_nonzero (InsertUser.height insertUser) 170)
      as (h & Hh & Hh0); [lia|].
    exists w, h. auto. }
  split.
  { intros w Hw Hw0. cbn [user createUser fst User.weight]. rewrite Hw.
    unfold orNumber. apply Z.eqb_neq in Hw0. now rewrite Hw0. }
  split.
  { intros h Hh Hh0. cbn [user createUser fst User.height]. rewrite Hh.
    unfold orNumber. apply Z.eqb_neq in Hh0. now rewrite Hh0. }
  split.
  { cbn [user createUser fst User.fullName]. unfold orString.
    destruct (InsertUser.fullName insertUser) as [[[|c s]|]|]; discriminate. }
  split.
  { cbn [user createUser fst User.age]. unfold orNumber.
    destruct (InsertUser.age insertUser) as [[n|]|]; try discriminate.
    destruct (n =? 0) eqn:E; [discriminate|].
    apply Z.eqb_neq in E. congruence. }
  split; [reflexivity|].
  split.
  { cbn [user createUser fst User.weight].
    intros [-> | [-> | ->]]; reflexivity. }
  split.
  { cbn [user createUser fst User.height].
    intros [-> | [-> | ->]]; reflexivity. }
  split.
  { cbn [user createUser fst User.fullName].
    intros [-> | [-> | ->]]; reflexivity. }
  split.
  { intros s Hs Hne. cbn [user createUser fst User.fullName]. rewrite Hs.
    destruct s as [|c s]; [congruence | reflexivity]. }
  split.
  { cbn [user createUser fst User.age].
    intros [-> | [-> | ->]]; reflexivity. }
  split.
  { intros n Hn Hn0. cbn [user createUser fst User.age]. rewrite Hn.
    unfold orNumber. apply Z.eqb_neq in Hn0. now rewrite Hn0. }
  repeat split.
Qed.

Lemma createUser_fresh_witness :
  let insertUser := InsertUser.mk "ana" "secret" (Some (Some EmptyString))
                                  None (Some (Some 0)) (Some (Some 182)) in
  let user := fst (createUser insertUser UserStore_new) in
  reachableUsers UserStore_new
  /\ InsertUser.height insertUser = Some (Some 182)
  /\ 182 <> 0
  /\ User.height user = Some 182
  /\ InsertUser.weight insertUser = Some (Some 0)
  /\ User.weight user = Some 70000
  /\ User.fullName user = None
  /\ User.age user = None.
Proof.
  assert (Hh : 182 <> 0) by lia.
  destruct (createUser_fresh UserStore_new
              (InsertUser.mk "ana" "secret" (Some (Some EmptyString)) None
                             (Some (Some 0)) (Some (Some 182)))
              reachableUsers_new)
    as (_ & _ & _ & _ & _ & Hheight & _ & _ & _ & Hweight & _ & Hname & _
        & Hage & _).
  exact (conj reachableUsers_new (conj eq_refl (conj Hh
          (conj (Hheight 182 eq_refl Hh)
          (conj eq_refl
          (conj (Hweight (or_intror (or_intror eq_refl)))
          (conj (Hname (or_intror (or_intror eq_refl)))
                (Hage (or_introl eq_refl))))))))).
Defined.

(** X9.  On a user store built by the program, [getUserByUsername] returns
    a stored user of that name, the one created first among those that
    have it, and returns nothing exactly when no stored user has the
    name. *)
Theorem getUserByUsername_first (this : UserStore) (name : string) :
  reachableUsers this ->
  match getUserByUsername this name with
  | Some user =>
      User.username user = name
      /\ getUser this (User.id user) = Some user
      /\ forall other, In other (JsMap.values (users this)) ->
                       User.username other = name ->
                       User.id user <= User.id other
  | None =>
      forall other, In other (JsMap.values (users this)) ->
                    User.username other <> name
  end.
Proof.
  intros Hreach. apply reachableUsers_counted in Hreach.
  unfold getUserByUsername.
  destruct (find _ (JsMap.values (users this))) as [user|] eqn:E.
  - pose proof (find_some _ _ E) as [Hin Hname].
    apply String.eqb_eq in Hname.
    split; [exact Hname|].
    split; [now apply (counted_lookup User.id _ _ _ Hreach)|].
    intros other Hother Hn.
    apply (find_least User.id _ _ _
             (counted_values_sorted User.id _ _ Hreach) E other Hother).
    now apply String.eqb_eq.
  - intros other Hother Hn.
    pose proof (find_none _ _ E other Hother) as Hf.
    apply String.eqb_neq in Hf. contradiction.
Qed.

Lemma getUserByUsername_first_witness :
  let ana := InsertUser.mk "ana" "secret" None None None None in
  let bob := InsertUser.mk "bob" "hidden" None None None None in
  let this := snd (createUser ana (snd (createUser bob
                     (snd (createUser ana UserStore_new))))) in
  reachableUsers this
  /\ option_map User.id (getUserByUsername this "ana") = Some 1
  /\ (forall other, In other (JsMap.values (users this)) ->
                    User.username other <> "eve"%string).
Proof.
  cbv zeta.
  assert (Hreach : reachableUsers
            (snd (createUser (InsertUser.mk "ana" "secret" None None None None)
               (snd (createUser
                       (InsertUser.mk "bob" "hidden" None None None None)
                  (snd (createUser
                          (InsertUser.mk "ana" "secret" None None None None)
                          UserStore_new)))))))
    by (repeat apply reachableUsers_create; apply reachableUsers_new).
  exact (conj Hreach (conj eq_refl
          (getUserByUsername_first _ "eve" Hreach))).
Defined.

(** X10.  [createUser] does not look at the names in use.  After it, a
    search by name returns what it returned before when that was a user,
    so a second user created under a name in use is not found by
    [getUserByUsername]; when the search returned nothing before, it now
    returns the new user if the name is the new user's, and nothing
    otherwise. *)
Theorem createUser_then_lookup (this : UserStore) (insertUser : InsertUser.t)
    (name : string) :
  reachableUsers this ->
  let user := fst (createUser insertUser this) in
  let this' := snd (createUser insertUser this) in
  getUserByUsername this' name
  = match getUserByUsername this name with
    | Some older => Some older
    | None =>
        if String.eqb (InsertUser.username insertUser) name
        then Some user else None
    end.
Proof.
  intros Hreach user this'. apply reachableUsers_counted in Hreach.
  assert (Happ : users this' = users this ++ [(currentUserId this, user)])
    by exact (proj1 (counted_set_new User.id (users this)
                       (currentUserId this) user Hreach eq_refl)).
  unfold getUserByUsername. rewrite Happ.
  unfold JsMap.values. rewrite map_app. cbn [map snd].
  rewrite find_snoc. reflexivity.
Qed.

Lemma createUser_then_lookup_witness :
  let ana := InsertUser.mk "ana" "secret" None None None None in
  let ana2 := InsertUser.mk "ana" "other" None None None None in
  let this := snd (createUser ana UserStore_new) in
  reachableUsers this
  /\ option_map User.password
       (getUserByUsername (snd (createUser ana2 this)) "ana")
     = Some "secret"%string.
Proof.
  cbv zeta.
  assert (Hreach : reachableUsers
            (snd (createUser (InsertUser.mk "ana" "secret" None None None None)
                             UserStore_new)))
    by (apply reachableUsers_create, reachableUsers_new).
  split; [exact Hreach|].
  rewrite (createUser_then_lookup _
             (InsertUser.mk "ana" "other" None None None None) "ana" Hreach).
  reflexivity.
Defined.

(** X11.  [updateUserStats] fails with "User not found" exactly when no
    user is stored under the identifier.  Otherwise it sets the weight and
    the height, sets the full name and the age when they are given and
    keeps them when they are not, keeps the identifier, the name, the
    password and the profile image, stores the result under the same
    identifier, and leaves every other user, the order of the users, the
    counter and the identifier found under every name as they were. *)
Theorem updateUserStats_frame (userId weight height : Z)
    (fullName : option string) (age : option Z) (this : UserStore) :
  match updateUserStats userId weight height fullName age this with
  | inl message =>
      message = "User not found"%string /\ getUser this userId = None
  | inr (updatedUser, this') =>
      (exists user,
          getUser this userId = Some user
          /\ User.id updatedUser = User.id user
          /\ User.username updatedUser = User.username user
          /\ User.password updatedUser = User.password user
          /\ User.profileImage updatedUser = User.profileImage user
          /\ User.fullName updatedUser
             = match fullName with
               | Some s => Some s
               | None => User.fullName user
               end
          /\ User.age updatedUser
             = match age with Some n => Some n | None => User.age user end)
      /\ User.weight updatedUser = Some weight
      /\ User.height updatedUser = Some height
      /\ getUser this' userId = Some updatedUser
      /\ (forall k, k <> userId -> getUser this' k = getUser this k)
      /\ JsMap.keys (users this') = JsMap.keys (users this)
      /\ currentUserId this' = currentUserId this
      /\ (forall name,
             option_map User.id (getUserByUsername this' name)
             = option_map User.id (getUserByUsername this name))
  end.
Proof.
  unfold updateUserStats, getUser.
  destruct (JsMap.get userId (users this)) as [user|] eqn:E.
  - cbn [users currentUserId].
    split; [exists user; repeat split|].
    split; [reflexivity|]. split; [reflexivity|].
    split; [apply JsMap_get_set_same|].
    split; [intros k Hk; now apply JsMap_get_set_other|].
    split; [now apply (JsMap_set_keys _ _ user)|].
    split; [reflexivity|].
    intros name. unfold getUserByUsername. cbn [users].
    apply find_by_name_id.
    now apply (JsMap_set_values_map _ userId _ user).
  - split; reflexivity.
Qed.

(** X12.  [updateUserProfileImage] fails with "User not found" exactly
    when no user is stored under the identifier.  Otherwise it changes the
    profile image of that user and nothing else: the other fields, the
    other users, the order of the users, the counter and the identifier
    found under every name are as they were. *)
Theorem updateUserProfileImage_frame (userId : Z) (profileImage : string)
    (this : UserStore) :
  match updateUserProfileImage userId profileImage this with
  | inl message =>
      message = "User not found"%string /\ getUser this userId = None
  | inr (updatedUser, this') =>
      (exists user,
          getUser this userId = Some user
          /\ User.id updatedUser = User.id user
          /\ User.username updatedUser = User.username user
          /\ User.password updatedUser = User.password user
          /\ User.fullName updatedUser = User.fullName user
          /\ User.age updatedUser = User.age user
          /\ User.weight updatedUser = User.weight user
          /\ User.height updatedUser = User.height user)
      /\ User.profileImage updatedUser = Some profileImage
      /\ getUser this' userId = Some updatedUser
      /\ (forall k, k <> userId -> getUser this' k = getUser this k)
      /\ JsMap.keys (users this') = JsMap.keys (users this)
      /\ currentUserId this' = currentUserId this
      /\ (forall name,
             option_map User.id (getUserByUsername this' name)
             = option_map User.id (getUserByUsername this name))
  end.
Proof.
  unfold updateUserProfileImage, getUser.
  destruct (JsMap.get userId (users this)) as [user|] eqn:E.
  - cbn [users currentUserId].
    split; [exists user; repeat split|].
    split; [reflexivity|].
    split; [apply JsMap_get_set_same|].
    split; [intros k Hk; now apply JsMap_get_set_other|].
    split; [now apply (JsMap_set_keys _ _ user)|].
    split; [reflexivity|].
    intros name. unfold getUserByUsername. cbn [users].
    apply find_by_name_id.
    now apply (JsMap_set_values_map _ userId _ user).
  - split; reflexivity.
Qed.

(** ** Properties of the user route *)

Lemma typeofNumber_inv (v : JsValue) :
  typeofNumber v = true -> exists n, v = VNumber n.
Proof. destruct v; try discriminate. eauto. Qed.

Lemma weight_height_check (weight height : JsValue) :
  negb (truthy weight) || negb (truthy height)
  || negb (typeofNumber weight) || negb (typeofNumber height)
  || (asNumber weight <? 30000) || (asNumber weight >? 300000)
  || (asNumber height <? 100) || (asNumber height >? 250) = false
  <-> validWeight weight /\ validHeight height.
Proof.
  split.
  - intros E1. repeat (apply orb_false_iff in E1; destruct E1 as [E1 ?]).
    destruct (typeofNumber_inv weight) as [w Hw];
      [now apply negb_false_iff|].
    destruct (typeofNumber_inv height) as [h Hh];
      [now apply negb_false_iff|].
    subst. cbn [asNumber] in *. rewrite !Z.gtb_ltb in *.
    repeat match goal with
           | H : (_ <? _) = false |- _ => apply Z.ltb_ge in H
           end.
    split; [exists w | exists h]; (split; [reflexivity | lia]).
  - intros [(w & -> & Hw) (h & -> & Hh)].
    cbn [truthy typeofNumber asNumber negb]. rewrite !Z.gtb_ltb.
    replace (w =? 0) with false by (symmetry; apply Z.eqb_neq; lia).
    replace (h =? 0) with false by (symmetry; apply Z.eqb_neq; lia).
    replace (w <? 30000) with false by (symmetry; apply Z.ltb_ge; lia).
    replace (300000 <? w) with false by (symmetry; apply Z.ltb_ge; lia).
    replace (h <? 100) with false by (symmetry; apply Z.ltb_ge; lia).
    replace (250 <? h) with false by (symmetry; apply Z.ltb_ge; lia).
    reflexivity.
Qed.

Lemma fullName_check (fullName : JsValue) :
  negb (isUndefined fullName)
  && (negb (truthy fullName) || negb (typeofString fullName)) = false
  <-> validFullName fullName.
Proof.
  split.
  - intros E2.
    destruct fullName as [| |b|n|s|t|]; simpl in E2;
      rewrite ?orb_true_r in E2; try discriminate; [now left|].
    right. exists s. split; [reflexivity|]. intros ->. discriminate E2.
  - intros [-> | (s & -> & Hs)]; [reflexivity|].
    destruct s as [|c s]; [congruence | reflexivity].
Qed.

Lemma age_check (age : JsValue) :
  negb (isUndefined age)
  && (negb (typeofNumber age) || (asNumber age <? 12)
      || (asNumber age >? 100)) = false
  <-> validAge age.
Proof.
  split.
  - intros E3.
    destruct age as [| |b|n|s|t|]; simpl in E3;
      try discriminate; [now left|]. right. exists n.
    split; [reflexivity|].
    apply orb_false_iff in E3. destruct E3 as [E3 E3'].
    apply Z.ltb_ge in E3. rewrite Z.gtb_ltb in E3'.
    apply Z.ltb_ge in E3'. lia.
  - intros [-> | (a & -> & Ha)]; [reflexivity|].
    cbn [isUndefined typeofNumber asNumber negb]. rewrite Z.gtb_ltb.
    replace (a <? 12) with false by (symmetry; apply Z.ltb_ge; lia).
    replace (100 <? a) with false by (symmetry; apply Z.ltb_ge; lia).
    reflexivity.
Qed.

(** X13.  [PUT /api/user/stats] answers [200] only to an authenticated
    request of a stored user whose weight is a number from 30000 to 300000
    and whose height is a number from 100 to 250, whose full name, if
    given, is a string that is not empty and whose age, if given, is a
    number from 12 to 100; the stored user then carries these values and
    the other users are as they were.  Every other answer leaves the store
    as it was: [401] is the answer to a request that is not authenticated;
    [400] is the answer to an authenticated request that is not valid, and
    its message names the first of weight and height, full name and age
    that is not; [500] is the answer to a valid request of a user that is
    not stored.  Conversely, every valid authenticated request is answered
    [500] when its user is not stored and [200] when it is. *)
Theorem putApiUserStats_validated (auth : option Z) (body : StatsBody)
    (storage : UserStore) :
  match putApiUserStats auth body storage with
  | (UserStats_status200 shown, storage') =>
      exists userId w h,
        auth = Some userId
        /\ b_weight body = VNumber w /\ 30000 <= w <= 300000
        /\ b_height body = VNumber h /\ 100 <= h <= 250
        /\ pub_weight shown = Some w /\ pub_height shown = Some h
        /\ (b_fullName body = VUndefined
            \/ exists s, b_fullName body = VString s /\ s <> EmptyString
                         /\ pub_fullName shown = Some s)
        /\ (b_age body = VUndefined
            \/ exists a, b_age body = VNumber a /\ 12 <= a <= 100
                         /\ pub_age shown = Some a)
        /\ option_map withoutPassword (getUser storage' userId) = Some shown
        /\ (forall k, k <> userId -> getUser storage' k = getUser storage k)
        /\ getUser storage userId <> None
  | (UserStats_status500, storage') =>
      storage' = storage
      /\ validStatsBody body
      /\ exists userId, auth = Some userId /\ getUser storage userId = None
  | (UserStats_status400 error, storage') =>
      storage' = storage /\ auth <> None
      /\ ~ validStatsBody body
      /\ match error with
         | invalidWeightHeight =>
             ~ (validWeight (b_weight body) /\ validHeight (b_height body))
         | invalidFullName =>
             validWeight (b_weight body) /\ validHeight (b_height body)
             /\ ~ validFullName (b_fullName body)
         | invalidAge =>
             validWeight (b_weight body) /\ validHeight (b_height body)
             /\ validFullName (b_fullName body)
             /\ ~ validAge (b_age body)
         end
  | (UserStats_sendStatus401, storage') => storage' = storage /\ auth = None
  end
  /\ (forall userId,
         auth = Some userId ->
         validStatsBody body ->
         match getUser storage userId with
         | None =>
             putApiUserStats auth body storage = (UserStats_status500, storage)
         | Some _ =>
             exists shown storage',
               putApiUserStats auth body storage
               = (UserStats_status200 shown, storage')
         end).
Proof.
  split.
  2:{ intros userId -> (Hw & Hh & Hn & Ha).
      unfold putApiUserStats. cbv zeta.
      rewrite (proj2 (weight_height_check _ _) (conj Hw Hh)).
      rewrite (proj2 (fullName_check _) Hn), (proj2 (age_check _) Ha).
      unfold updateUserStats, getUser.
      destruct (JsMap.get userId (users storage)) as [user|].
      - eexists. eexists. reflexivity.
      - reflexivity. }
  unfold putApiUserStats. destruct auth as [userId|]; [|split; reflexivity].
  cbv zeta.
  destruct (negb (truthy (b_weight body)) || _ || _ || _ || _ || _ || _ || _)
    eqn:E1.
  { assert (Hbad : ~ (validWeight (b_weight body)
                      /\ validHeight (b_height body))).
    { intros Hv. apply weight_height_check in Hv. congruence. }
    split; [reflexivity|]. split; [discriminate|].
    split; [|exact Hbad]. intros (Hw & Hh & _). apply Hbad. now split. }
  apply weight_height_check in E1. destruct E1 as [Hw Hh].
  destruct (negb (isUndefined (b_fullName body)) && _) eqn:E2.
  { assert (Hbad : ~ validFullName (b_fullName body)).
    { intros Hv. apply fullName_check in Hv. congruence. }
    split; [reflexivity|]. split; [discriminate|].
    split; [|exact (conj Hw (conj Hh Hbad))].
    intros (_ & _ & Hn & _). now apply Hbad. }
  apply fullName_check in E2.
  destruct (negb (isUndefined (b_age body)) && _) eqn:E3.
  { assert (Hbad : ~ validAge (b_age body)).
    { intros Hv. apply age_check in Hv. congruence. }
    split; [reflexivity|]. split; [discriminate|].
    split; [|exact (conj Hw (conj Hh (conj E2 Hbad)))].
    intros (_ & _ & _ & Ha). now apply Hbad. }
  apply age_check in E3.
  assert (Hvalid : validStatsBody body)
    by exact (conj Hw (conj Hh (conj E2 E3))).
  destruct Hw as (w & Hw & Rw). destruct Hh as (h & Hh & Rh).
  rewrite Hw, Hh in *. cbn [asNumber].
  unfold updateUserStats, getUser.
  destruct (JsMap.get userId (users storage)) as [user|] eqn:Eget.
  - exists userId, w, h. cbn [users].
    split; [reflexivity|]. split; [reflexivity|]. split; [lia|].
    split; [reflexivity|]. split; [lia|].
    split; [reflexivity|]. split; [reflexivity|].
    split.
    { destruct E2 as [Hu | (s & Hs & Hne)]; [now left|].
      right. exists s. rewrite Hs. auto. }
    split.
    { destruct E3 as [Hu | (a & Ha & Hrange)]; [now left|].
      right. exists a. rewrite Ha. auto. }
    split; [rewrite JsMap_get_set_same; reflexivity|].
    split; [|rewrite Eget; discriminate].
    intros k Hk. now apply JsMap_get_set_other.
  - split; [reflexivity|]. split; [exact Hvalid|]. exists userId. auto.
Qed.

Lemma putApiUserStats_validated_witness :
  let body := mkStatsBody (VNumber 70000) (VNumber 170) VUndefined
                          (VNumber 30) in
  validStatsBody body
  /\ getUser UserStore_new 7 = None
  /\ putApiUserStats (Some 7) body UserStore_new
     = (UserStats_status500, UserStore_new).
Proof.
  assert (Hvalid : validStatsBody
                     (mkStatsBody (VNumber 70000) (VNumber 170) VUndefined
                                  (VNumber 30))).
  { split; [exists 70000; split; [reflexivity | lia]|].
    split; [exists 170; split; [reflexivity | lia]|].
    split; [now left|]. right. exists 30. split; [reflexivity | lia]. }
  destruct (putApiUserStats_validated (Some 7)
              (mkStatsBody (VNumber 70000) (VNumber 170) VUndefined
                           (VNumber 30)) UserStore_new) as (_ & Hconv).
  exact (conj Hvalid (conj eq_refl (Hconv 7 eq_refl Hvalid))).
Defined.

(** ** Facts about the plan store *)

Lemma reachablePlans_counted (this : PlanStore) :
  reachablePlans this ->
  counted Workout.id (workouts this) (currentWorkoutId this)
  /\ counted WorkoutDay.id (workoutDays this) (currentWorkoutDayId this).
Proof.
  induction 1 as [|this insertWorkout _ [IHw IHd]
                  |this insertWorkoutDay _ [IHw IHd]
                  |this id pdfUrl workout this' _ [IHw IHd] Hupd].
  - split; apply counted_empty.
  - unfold createWorkout.
    cbn [snd workouts workoutDays currentWorkoutId currentWorkoutDayId].
    split; [|exact IHd]. apply counted_set_new; [exact IHw | reflexivity].
  - unfold createWorkoutDay.
    cbn [snd workouts workoutDays currentWorkoutId currentWorkoutDayId].
    split; [exact IHw|]. apply counted_set_new; [exact IHd | reflexivity].
  - unfold updateWorkoutPdf in Hupd.
    destruct (JsMap.get id (workouts this)) as [w|] eqn:E; [|discriminate].
    injection Hupd as <- <-.
    cbn [workouts workoutDays currentWorkoutId currentWorkoutDayId].
    split; [|exact IHd].
    eapply counted_set_old; [exact IHw | exact E | reflexivity].
Qed.

Lemma createWorkout_appends (insertWorkout : InsertWorkout.t)
    (this : PlanStore) :
  reachablePlans this ->
  workouts (snd (createWorkout insertWorkout this))
  = workouts this
    ++ [(currentWorkoutId this, fst (createWorkout insertWorkout this))].
Proof.
  intros Hreach. apply reachablePlans_counted in Hreach.
  destruct Hreach as [Hw _].
  exact (proj1 (counted_set_new Workout.id (workouts this)
                  (currentWorkoutId this)
                  (fst (createWorkout insertWorkout this)) Hw eq_refl)).
Qed.

Lemma createWorkoutDay_appends (insertWorkoutDay : InsertWorkoutDay.t)
    (this : PlanStore) :
  reachablePlans this ->
  workoutDays (snd (createWorkoutDay insertWorkoutDay this))
  = workoutDays this
    ++ [(currentWorkoutDayId this,
         fst (createWorkoutDay insertWorkoutDay this))].
Proof.
  intros Hreach. apply reachablePlans_counted in Hreach.
  destruct Hreach as [_ Hd].
  exact (proj1 (counted_set_new WorkoutDay.id (workoutDays this)
                  (currentWorkoutDayId this)
                  (fst (createWorkoutDay insertWorkoutDay this)) Hd eq_refl)).
Qed.

Lemma getWorkouts_after_create (insertWorkout : InsertWorkout.t)
    (this : PlanStore) (uid : Z) :
  reachablePlans this ->
  getWorkouts (snd (createWorkout insertWorkout this)) uid
  = getWorkouts this uid
    ++ (if InsertWorkout.userId insertWorkout =? uid
        then [fst (createWorkout insertWorkout this)] else []).
Proof.
  intros Hreach. unfold getWorkouts.
  rewrite (createWorkout_appends insertWorkout this Hreach).
  unfold JsMap.values. rewrite map_app, filter_app. reflexivity.
Qed.

Lemma getWorkoutDays_after_create (insertWorkoutDay : InsertWorkoutDay.t)
    (this : PlanStore) (k : Z) :
  reachablePlans this ->
  getWorkoutDays (snd (createWorkoutDay insertWorkoutDay this)) k
  = getWorkoutDays this k
    ++ (if InsertWorkoutDay.workoutId insertWorkoutDay =? k
        then [fst (createWorkoutDay insertWorkoutDay this)] else []).
Proof.
  intros Hreach. unfold getWorkoutDays.
  rewrite (createWorkoutDay_appends insertWorkoutDay this Hreach).
  unfold JsMap.values. rewrite map_app, filter_app. reflexivity.
Qed.

Lemma parseInt_toString (n : Z) : parseInt (Number_toString n) = Some n.
Proof. apply parseInt_decimal, decimalValue_toString. Qed.

Lemma owned_ids (uid : Z) (l l' : list Workout.t) :
  map (fun w => (Workout.userId w, Workout.id w)) l'
  = map (fun w => (Workout.userId w, Workout.id w)) l ->
  map Workout.id (filter (fun w => Workout.userId w =? uid) l')
  = map Workout.id (filter (fun w => Workout.userId w =? uid) l).
Proof.
  revert l'. induction l as [|a l IH]; intros [|a' l'] H; try discriminate.
  - reflexivity.
  - simpl in *. injection H as Hu Hi Hl. rewrite Hu.
    destruct (Workout.userId a =? uid); simpl; [f_equal; [exact Hi|]|];
      now apply IH.
Qed.

(** ** Properties of the plan store and of its routes *)

(** X14.  On a plan store built by the program, [createWorkout] stores
    the workout under an identifier that was free, with no file attached
    even when the caller supplies one, and leaves the other workouts as
    they were: the list of its owner gains it at the end and the lists of
    the other users do not change. *)
Theorem createWorkout_listed (this : PlanStore)
    (insertWorkout : InsertWorkout.t) :
  reachablePlans this ->
  let workout := fst (createWorkout insertWorkout this) in
  let this' := snd (createWorkout insertWorkout this) in
  getWorkout this (Workout.id workout) = None
  /\ getWorkout this' (Workout.id workout) = Some workout
  /\ (forall k, k <> Workout.id workout ->
                getWorkout this' k = getWorkout this k)
  /\ Workout.pdfUrl workout = None
  /\ getWorkouts this' (InsertWorkout.userId insertWorkout)
     = getWorkouts this (InsertWorkout.userId insertWorkout) ++ [workout]
  /\ (forall uid, uid <> InsertWorkout.userId insertWorkout ->
                  getWorkouts this' uid = getWorkouts this uid).
Proof.
  intros Hreach workout this'.
  pose proof (reachablePlans_counted this Hreach) as [Hw _].
  pose proof (counted_fresh _ _ _ Hw) as Hfresh.
  split; [apply JsMap_get_absent; exact Hfresh|].
  split; [apply JsMap_get_set_same|].
  split; [intros k Hk; now apply JsMap_get_set_other|].
  split; [reflexivity|]. split.
  - unfold this'. rewrite (getWorkouts_after_create _ _ _ Hreach).
    now rewrite Z.eqb_refl.
  - intros uid Hne. unfold this'.
    rewrite (getWorkouts_after_create _ _ _ Hreach).
    replace (InsertWorkout.userId insertWorkout =? uid) with false
      by (symmetry; apply Z.eqb_neq; congruence).
    apply app_nil_r.
Qed.

Lemma createWorkout_listed_witness :
  let plan := InsertWorkout.mk 1 "Push" (Some (Some "/uploads/old.csv"%string)) in
  reachablePlans PlanStore_new
  /\ Workout.pdfUrl (fst (createWorkout plan PlanStore_new)) = None
  /\ getWorkouts (snd (createWorkout plan PlanStore_new)) 1
     = [fst (createWorkout plan PlanStore_new)].
Proof.
  destruct (createWorkout_listed PlanStore_new
              (InsertWorkout.mk 1 "Push" (Some (Some "/uploads/old.csv"%string)))
              reachablePlans_new) as (_ & _ & _ & Hpdf & Hlist & _).
  exact (conj reachablePlans_new (conj Hpdf Hlist)).
Defined.

(** X15.  [updateWorkoutPdf] fails with "Workout not found" exactly when
    no workout is stored under the identifier.  Otherwise it attaches the
    file to that workout and changes nothing else: the owner and the name
    are kept, the other workouts and the days are as they were, and every
    user lists the same workouts as before. *)
Theorem updateWorkoutPdf_frame (id : Z) (pdfUrl : string) (this : PlanStore) :
  match updateWorkoutPdf id pdfUrl this with
  | inl message =>
      message = "Workout not found"%string /\ getWorkout this id = None
  | inr (updatedWorkout, this') =>
      (exists workout,
          getWorkout this id = Some workout
          /\ Workout.id updatedWorkout = Workout.id workout
          /\ Workout.userId updatedWorkout = Workout.userId workout
          /\ Workout.name updatedWorkout = Workout.name workout)
      /\ Workout.pdfUrl updatedWorkout = Some pdfUrl
      /\ getWorkout this' id = Some updatedWorkout
      /\ (forall k, k <> id -> getWorkout this' k = getWorkout this k)
      /\ (forall uid, map Workout.id (getWorkouts this' uid)
                      = map Workout.id (getWorkouts this uid))
      /\ workoutDays this' = workoutDays this
  end.
Proof.
  unfold updateWorkoutPdf, getWorkout.
  destruct (JsMap.get id (workouts this)) as [workout|] eqn:E.
  - cbn [workouts workoutDays].
    split; [exists workout; repeat split|].
    split; [reflexivity|].
    split; [apply JsMap_get_set_same|].
    split; [intros k Hk; now apply JsMap_get_set_other|].
    split; [|reflexivity].
    intros uid. unfold getWorkouts. cbn [workouts]. apply owned_ids.
    now apply (JsMap_set_values_map _ id _ workout).
  - split; reflexivity.
Qed.

(** X16.  The workout routes serve owners only.  [GET /api/workouts/:id]
    answers with a workout only to its owner, and it is the workout stored
    under the number [parseInt] reads in the path; [GET /api/workouts]
    lists the stored workouts of the requester and no other;
    [GET /api/workouts/:workoutId/days] lists the days of that workout and
    no other, to its owner only; [POST /api/workouts/:workoutId/days]
    creates a day only for the owner of the workout, with the workout of
    the path whatever the body says, and every other answer of it leaves
    the store as it was. *)
Theorem plan_routes_owner_only (auth : option Z) (param : string)
    (body : InsertWorkoutDay.t) (storage : PlanStore) :
  (forall workout,
      getApiWorkout auth param storage = Workout_json workout ->
      auth = Some (Workout.userId workout)
      /\ workoutOfParam storage param = Some workout)
  /\ (forall listed,
         getApiWorkouts auth storage = Workouts_json listed ->
         exists userId,
           auth = Some userId
           /\ forall workout,
               In workout listed
               <-> In workout (JsMap.values (workouts storage))
                   /\ Workout.userId workout = userId)
  /\ (forall listed,
         getApiWorkoutDays auth param storage = Days_json listed ->
         exists workoutId workout,
           parseInt param = Some workoutId
           /\ getWorkout storage workoutId = Some workout
           /\ auth = Some (Workout.userId workout)
           /\ forall workoutDay,
               In workoutDay listed
               <-> In workoutDay (JsMap.values (workoutDays storage))
                   /\ WorkoutDay.workoutId workoutDay = workoutId)
  /\ match postApiWorkoutDays auth param body storage with
     | (CreatedDay_status201 workoutDay, storage') =>
         exists workoutId workout,
           parseInt param = Some workoutId
           /\ getWorkout storage workoutId = Some workout
           /\ auth = Some (Workout.userId workout)
           /\ WorkoutDay.workoutId workoutDay = workoutId
           /\ workouts storage' = workouts storage
     | (_, storage') => storage' = storage
     end.
Proof.
  split; [|split; [|split]].
  - intros workout. unfold getApiWorkout.
    destruct auth as [userId|]; [|discriminate].
    destruct (workoutOfParam storage param) as [w|]; [|discriminate].
    destruct (Workout.userId w =? userId) eqn:E; [|discriminate].
    apply Z.eqb_eq in E. simpl. intros [= <-]. split; congruence.
  - intros listed. unfold getApiWorkouts.
    destruct auth as [userId|]; [|discriminate].
    intros [= <-]. exists userId. split; [reflexivity|].
    intros workout. unfold getWorkouts. rewrite filter_In, Z.eqb_eq.
    reflexivity.
  - intros listed. unfold getApiWorkoutDays.
    destruct auth as [userId|]; [|discriminate].
    destruct (parseInt param) as [workoutId|]; [|discriminate].
    destruct (getWorkout storage workoutId) as [w|] eqn:Ew; [|discriminate].
    destruct (Workout.userId w =? userId) eqn:E; [|discriminate].
    apply Z.eqb_eq in E. simpl. intros [= <-].
    exists workoutId, w. split; [reflexivity|]. split; [exact Ew|].
    split; [congruence|].
    intros workoutDay. unfold getWorkoutDays. rewrite filter_In, Z.eqb_eq.
    reflexivity.
  - unfold postApiWorkoutDays.
    destruct auth as [userId|]; [|reflexivity].
    destruct (parseInt param) as [workoutId|]; [|reflexivity].
    destruct (getWorkout storage workoutId) as [w|] eqn:Ew; [|reflexivity].
    destruct (Workout.userId w =? userId) eqn:E; [|reflexivity].
    apply Z.eqb_eq in E. simpl.
    exists workoutId, w. repeat split; congruence.
Qed.

(** X17.  A workout created by [POST /api/workouts] belongs to the
    requester, whatever [userId] the body carries.  On a plan store built
    by the program it is then served by [GET /api/workouts/<id>], with the
    identifier written in decimal in the path, to the requester, refused
    with [403] to every other user, and listed last by
    [GET /api/workouts] for the requester. *)
Theorem postApiWorkouts_then_get (uid : Z) (body : InsertWorkout.t)
    (storage : PlanStore) :
  reachablePlans storage ->
  let storage' := snd (postApiWorkouts (Some uid) body storage) in
  exists workout,
    fst (postApiWorkouts (Some uid) body storage)
    = CreatedWorkout_status201 workout
    /\ Workout.userId workout = uid
    /\ Workout.name workout = InsertWorkout.name body
    /\ getApiWorkout (Some uid) (Number_toString (Workout.id workout)) storage'
       = Workout_json workout
    /\ (forall other, other <> uid ->
           getApiWorkout (Some other) (Number_toString (Workout.id workout))
                         storage'
           = Workout_sendStatus403)
    /\ getApiWorkouts (Some uid) storage'
       = Workouts_json (getWorkouts storage uid ++ [workout]).
Proof.
  intros Hreach storage'.
  set (insertWorkout := {| InsertWorkout.userId := uid;
                           InsertWorkout.name := InsertWorkout.name body;
                           InsertWorkout.pdfUrl := InsertWorkout.pdfUrl body |}).
  exists (fst (createWorkout insertWorkout storage)).
  assert (Hst : storage' = snd (createWorkout insertWorkout storage))
    by reflexivity.
  split; [reflexivity|]. split; [reflexivity|]. split; [reflexivity|].
  assert (Hget : workoutOfParam storage'
                   (Number_toString
                      (Workout.id (fst (createWorkout insertWorkout storage))))
                 = Some (fst (createWorkout insertWorkout storage))).
  { unfold workoutOfParam. rewrite parseInt_toString, Hst.
    apply JsMap_get_set_same. }
  split; [|split].
  - unfold getApiWorkout. rewrite Hget.
    cbn [createWorkout fst Workout.userId insertWorkout InsertWorkout.userId].
    now rewrite Z.eqb_refl.
  - intros other Hother. unfold getApiWorkout. rewrite Hget.
    cbn [createWorkout fst Workout.userId insertWorkout InsertWorkout.userId].
    replace (uid =? other) with false
      by (symmetry; apply Z.eqb_neq; congruence).
    reflexivity.
  - unfold getApiWorkouts. rewrite Hst.
    rewrite (getWorkouts_after_create insertWorkout storage uid Hreach).
    cbn [insertWorkout InsertWorkout.userId]. now rewrite Z.eqb_refl.
Qed.

Lemma postApiWorkouts_then_get_witness :
  let body := InsertWorkout.mk 99 "Legs" None in
  let storage' := snd (postApiWorkouts (Some 7) body PlanStore_new) in
  reachablePlans PlanStore_new
  /\ exists workout,
      fst (postApiWorkouts (Some 7) body PlanStore_new)
      = CreatedWorkout_status201 workout
      /\ Workout.userId workout = 7
      /\ getApiWorkout (Some 99) (Number_toString (Workout.id workout))
                       storage'
         = Workout_sendStatus403.
Proof.
  cbv zeta.
  destruct (postApiWorkouts_then_get 7 (InsertWorkout.mk 99 "Legs" None)
              PlanStore_new reachablePlans_new)
    as (workout & Hresp & Howner & _ & _ & Hother & _).
  assert (Hne : 99 <> 7) by lia.
  split; [exact reachablePlans_new|].
  exists workout. exact (conj Hresp (conj Howner (Hother 99 Hne))).
Defined.

(** X18.  On a plan store built by the program, when the owner of the
    workout named in the path posts a day, the day is created for that
    workout, with an empty list of exercises when the body's is not an
    array; [GET /api/workouts/:workoutId/days] then lists the former days
    of the workout followed by the new one, and the days of every other
    workout are as they were. *)
Theorem postApiWorkoutDays_then_list (uid workoutId : Z) (param : string)
    (workout : Workout.t) (body : InsertWorkoutDay.t) (storage : PlanStore) :
  reachablePlans storage ->
  parseInt param = Some workoutId ->
  getWorkout storage workoutId = Some workout ->
  Workout.userId workout = uid ->
  let storage' := snd (postApiWorkoutDays (Some uid) param body storage) in
  exists workoutDay,
    fst (postApiWorkoutDays (Some uid) param body storage)
    = CreatedDay_status201 workoutDay
    /\ WorkoutDay.workoutId workoutDay = workoutId
    /\ (InsertWorkoutDay.exercises body = None ->
        WorkoutDay.exercises workoutDay = [])
    /\ getWorkoutDay storage' (WorkoutDay.id workoutDay) = Some workoutDay
    /\ getApiWorkoutDays (Some uid) param storage'
       = Days_json (getWorkoutDays storage workoutId ++ [workoutDay])
    /\ (forall k, k <> workoutId ->
                  getWorkoutDays storage' k = getWorkoutDays storage k).
Proof.
  intros Hreach Hparam Hw Howner storage'.
  set (insertDay := {| InsertWorkoutDay.workoutId := workoutId;
                       InsertWorkoutDay.day := InsertWorkoutDay.day body;
                       InsertWorkoutDay.name := InsertWorkoutDay.name body;
                       InsertWorkoutDay.exercises :=
                         InsertWorkoutDay.exercises body |}).
  assert (Hpost : postApiWorkoutDays (Some uid) param body storage
                  = (CreatedDay_status201
                       (fst (createWorkoutDay insertDay storage)),
                     snd (createWorkoutDay insertDay storage))).
  { unfold postApiWorkoutDays. rewrite Hparam, Hw, Howner, Z.eqb_refl.
    reflexivity. }
  assert (Hst : storage' = snd (createWorkoutDay insertDay storage))
    by (unfold storage'; now rewrite Hpost).
  exists (fst (createWorkoutDay insertDay storage)).
  split; [now rewrite Hpost|]. split; [reflexivity|].
  split; [intros Hnone; cbn [createWorkoutDay fst WorkoutDay.exercises
                             insertDay InsertWorkoutDay.exercises];
          now rewrite Hnone|].
  split; [rewrite Hst; apply JsMap_get_set_same|].
  split.
  - unfold getApiWorkoutDays. rewrite Hparam, Hst.
    change (getWorkout (snd (createWorkoutDay insertDay storage)) workoutId)
      with (getWorkout storage workoutId).
    rewrite Hw, Howner, Z.eqb_refl. cbn [negb].
    rewrite (getWorkoutDays_after_create insertDay storage workoutId Hreach).
    cbn [insertDay InsertWorkoutDay.workoutId]. now rewrite Z.eqb_refl.
  - intros k Hk. rewrite Hst.
    rewrite (getWorkoutDays_after_create insertDay storage k Hreach).
    cbn [insertDay InsertWorkoutDay.workoutId].
    replace (workoutId =? k) with false
      by (symmetry; apply Z.eqb_neq; congruence).
    apply app_nil_r.
Qed.

Lemma plan_routes_owner_only_witness :
  let storage := snd (createWorkout (InsertWorkout.mk 7 "Legs" None)
                                    PlanStore_new) in
  let workout := fst (createWorkout (InsertWorkout.mk 7 "Legs" None)
                                    PlanStore_new) in
  getApiWorkout (Some 7) "1" storage = Workout_json workout
  /\ Some 7 = Some (Workout.userId workout)
  /\ workoutOfParam storage "1" = Some workout
  /\ getApiWorkout (Some 8) "1" storage = Workout_sendStatus403
  /\ getApiWorkout (Some 7) "one" storage = Workout_status404.
Proof.
  cbv zeta.
  assert (Hget : getApiWorkout (Some 7) "1"
                   (snd (createWorkout (InsertWorkout.mk 7 "Legs" None)
                                       PlanStore_new))
                 = Workout_json
                     (fst (createWorkout (InsertWorkout.mk 7 "Legs" None)
                                         PlanStore_new))) by reflexivity.
  destruct (plan_routes_owner_only (Some 7) "1"
              (InsertWorkoutDay.mk 0 "" "" None)
              (snd (createWorkout (InsertWorkout.mk 7 "Legs" None)
                                  PlanStore_new))) as (Hone & _).
  destruct (Hone _ Hget) as [Howner Hstored].
  exact (conj Hget (conj Howner (conj Hstored (conj eq_refl eq_refl)))).
Defined.

Lemma postApiWorkoutDays_then_list_witness :
  let storage := snd (createWorkout (InsertWorkout.mk 7 "Legs" None)
                                    PlanStore_new) in
  let workout := fst (createWorkout (InsertWorkout.mk 7 "Legs" None)
                                    PlanStore_new) in
  let body := InsertWorkoutDay.mk 55 "Monday" "Squats" None in
  reachablePlans storage
  /\ parseInt "1" = Some 1
  /\ getWorkout storage 1 = Some workout
  /\ Workout.userId workout = 7
  /\ exists workoutDay,
      fst (postApiWorkoutDays (Some 7) "1" body storage)
      = CreatedDay_status201 workoutDay
      /\ WorkoutDay.workoutId workoutDay = 1
      /\ getApiWorkoutDays (Some 7) "1"
           (snd (postApiWorkoutDays (Some 7) "1" body storage))
         = Days_json [workoutDay].
Proof.
  cbv zeta.
  assert (Hreach : reachablePlans
            (snd (createWorkout (InsertWorkout.mk 7 "Legs" None)
                                PlanStore_new)))
    by (apply reachablePlans_workout, reachablePlans_new).
  destruct (postApiWorkoutDays_then_list 7 1 "1"
              (fst (createWorkout (InsertWorkout.mk 7 "Legs" None)
                                  PlanStore_new))
              (InsertWorkoutDay.mk 55 "Monday" "Squats" None)
              _ Hreach eq_refl eq_refl eq_refl)
    as (workoutDay & Hresp & Hid & _ & _ & Hlist & _).
  refine (conj Hreach (conj eq_refl (conj eq_refl (conj eq_refl _)))).
  exists workoutDay. exact (conj Hresp (conj Hid Hlist)).
Defined.

(** ** Properties of [getBMIClassification] *)

(** X19.  [getBMIClassification] gives each class a range of the index,
    closed below and open above: below 18.5 underweight, from 18.5 normal,
    from 25 overweight, from 30, 35 and 40 the three grades of obesity.
    The bounds 18.5, 25, 30, 35 and 40 belong to the class above. *)
Theorem getBMIClassification_ranges (bmi : Q) :
  (getBMIClassification bmi = "Abaixo do peso"%string
   <-> Qlt bmi (37 # 2))
  /\ (getBMIClassification bmi = "Peso normal"%string
      <-> Qle (37 # 2) bmi /\ Qlt bmi 25)
  /\ (getBMIClassification bmi = "Sobrepeso"%string
      <-> Qle 25 bmi /\ Qlt bmi 30)
  /\ (getBMIClassification bmi = "Obesidade Grau I"%string
      <-> Qle 30 bmi /\ Qlt bmi 35)
  /\ (getBMIClassification bmi = "Obesidade Grau II"%string
      <-> Qle 35 bmi /\ Qlt bmi 40)
  /\ (getBMIClassification bmi = "Obesidade Grau III"%string
      <-> Qle 40 bmi).
Proof.
  assert (H1 : Qlt (37 # 2) 25) by reflexivity.
  assert (H2 : Qlt 25 30) by reflexivity.
  assert (H3 : Qlt 30 35) by reflexivity.
  assert (H4 : Qlt 35 40) by reflexivity.
  unfold getBMIClassification.
  destruct (Qlt_le_dec bmi (37 # 2)) as [L1 | G1];
    [|destruct (Qlt_le_dec bmi 25) as [L2 | G2];
      [|destruct (Qlt_le_dec bmi 30) as [L3 | G3];
        [|destruct (Qlt_le_dec bmi 35) as [L4 | G4];
          [|destruct (Qlt_le_dec bmi 40) as [L5 | G5]]]]];
    repeat split; intros; try discriminate; try reflexivity;
    repeat match goal with H : _ /\ _ |- _ => destruct H end;
    try assumption;
    exfalso;
    repeat match goal with
           | H : Qle _ _ |- _ => unfold Qle in H; simpl in H
           | H : Qlt _ _ |- _ => unfold Qlt in H; simpl in H
           end; lia.
Qed.

(** X20.  A request body is JSON and holds no [Date].  [POST /api/logs]
    therefore never stores a date chosen by the client: a body without
    [date] gives a log dated by the clock of the server, and a body with
    any [date] value is answered [400] with an issue on [date] and stores
    nothing. *)
Theorem postApiLogs_server_date (integerColumn : Z -> bool) (uid : Z)
    (body : LogInput) (now : Date) (storage : MemStorage) :
  (forall t, v_date body <> VDate t) ->
  match postApiLogs integerColumn (Some uid) body now storage with
  | (Logs_status201 log, _) => v_date body = VUndefined /\ date log = now
  | (Logs_status400 errors, storage') =>
      storage' = storage
      /\ (v_date body <> VUndefined ->
          In (mkZodIssue invalid_type "date") errors)
  | (Logs_sendStatus401, _) => False
  end.
Proof.
  intros Hjson. unfold postApiLogs, insertWorkoutLogSchema_parse.
  cbn [withUserId v_userId v_workoutId v_date v_completedExercises
       v_waterIntake v_duration v_notes].
  assert (Hdate : (v_date body = VUndefined
                   /\ zOptional zDate "date" (v_date body) = inr None)
                  \/ (v_date body <> VUndefined
                      /\ zOptional zDate "date" (v_date body)
                         = inl [mkZodIssue invalid_type "date"])).
  { destruct (v_date body) as [| |b|n|s|t|] eqn:E;
      try (right; split; [discriminate | reflexivity]).
    - left. split; reflexivity.
    - exfalso. exact (Hjson t eq_refl). }
  destruct Hdate as [[Hundef Hr] | [Hdef Hr]]; rewrite Hr.
  - destruct (zNumber integerColumn "userId" (VNumber uid));
      destruct (zOptional (zNullable (zNumber integerColumn)) "workoutId" _);
      destruct (zOptional (zNumber integerColumn) "completedExercises" _);
      destruct (zOptional (zNumber integerColumn) "waterIntake" _);
      destruct (zOptional (zNumber integerColumn) "duration" _);
      destruct (zOptional (zNullable zString) "notes" _);
      cbn [createWorkoutLog date in_date orDefault];
      first [ split; [reflexivity | intros H; contradiction]
            | split; [exact Hundef | reflexivity] ].
  - destruct (zNumber integerColumn "userId" (VNumber uid));
      destruct (zOptional (zNullable (zNumber integerColumn)) "workoutId" _);
      destruct (zOptional (zNumber integerColumn) "completedExercises" _);
      destruct (zOptional (zNumber integerColumn) "waterIntake" _);
      destruct (zOptional (zNumber integerColumn) "duration" _);
      destruct (zOptional (zNullable zString) "notes" _);
      (split; [reflexivity|]); intros _; cbn [issuesOf];
      repeat (apply in_or_app; first [left; now left | right]);
      now left.
Qed.

Lemma postApiLogs_server_date_witness :
  let body := {| v_userId := VUndefined; v_workoutId := VUndefined;
                 v_date := VString "2024-01-01";
                 v_completedExercises := VNumber 3;
                 v_waterIntake := VNumber 500; v_duration := VNumber 1800;
                 v_notes := VUndefined |} in
  (forall t, v_date body <> VDate t)
  /\ postApiLogs int32Range (Some 1) body 1000 MemStorage_new
     = (Logs_status400 [mkZodIssue invalid_type "date"], MemStorage_new)
  /\ In (mkZodIssue invalid_type "date") [mkZodIssue invalid_type "date"].
Proof.
  cbv zeta.
  assert (Hjson : forall t,
             v_date {| v_userId := VUndefined; v_workoutId := VUndefined;
                       v_date := VString "2024-01-01";
                       v_completedExercises := VNumber 3;
                       v_waterIntake := VNumber 500;
                       v_duration := VNumber 1800;
                       v_notes := VUndefined |} <> VDate t)
    by (intros t; discriminate).
  pose proof (postApiLogs_server_date int32Range 1 _ 1000 MemStorage_new
                Hjson) as H.
  change (postApiLogs int32Range (Some 1) _ 1000 MemStorage_new)
    with (Logs_status400 [mkZodIssue invalid_type "date"], MemStorage_new)
    in H.
  destruct H as [_ Hin].
  refine (conj Hjson (conj eq_refl (Hin _))). discriminate.
Defined.
